(** * The declared surface of the [firebird] typings

    The repository holds one ambient declaration file,
    [types/firebird/index.d.ts].  It has no executable statements: its
    content is a module of class, interface, function and type-alias
    declarations, each with a documentation comment.  This development
    embeds that module as data (section 1 and 2), defines the questions one
    asks of a declaration file as functions over the data (section 3:
    member lookup through [extends], overload choice at a call, readonly
    properties, who produces a type), and settles the claims of the
    specification about the surface (section 4). *)

From Stdlib Require Import String Ascii List Bool Arith Lia.
Import ListNotations.
Open Scope string_scope.

(** ** 1. Syntax of ambient declarations *)

Set Warnings "-register-all".

(** How a parameter is written: [p: T], [p?: T] or [...p: T]. *)
Inductive pmodifier : Type := Required | Optional | Rest.

(** Type expressions, as far as the file uses them.  [T[]] and [Array<T>]
    are one type in TypeScript and share the constructor [TArray];
    [TIndexed k K V] is the object type [{[k: K]: V}] and [TEmptyObject]
    is [{}]. *)
Inductive ty : Type :=
| TVoid
| TBoolean
| TNumber
| TString
| TNull
| TThis
| TBoolLit (b : bool)
| TStrLit (s : string)
| TRef (name : string)
| TArray (elem : ty)
| TUnion (alts : list ty)
| TIndexed (key : string) (kty vty : ty)
| TEmptyObject
| TFun (ps : list param) (res : ty)
with param : Type :=
| Param (pname : string) (pmod : pmodifier) (pty : ty).

Definition pname (p : param) : string := let (n, _, _) := p in n.
Definition pmod (p : param) : pmodifier := let (_, m, _) := p in m.
Definition pty (p : param) : ty := let (_, _, t) := p in t.

(** A call signature: [<T extends C, ...>(params): ret]. *)
Record signature : Type := Sig {
  tparams : list (string * ty);
  params : list param;
  ret : ty
}.

(** A member of a class or interface body.  [MProperty n ro t] is
    [readonly n: t] when [ro] is true and [n: t] otherwise. *)
Inductive member : Type :=
| MConstructor (ps : list param)
| MProperty (name : string) (readonly : bool) (t : ty)
| MMethod (name : string) (sg : signature).

(** The comment in front of a declaration: a documentation comment
    (opened by a slash and two stars), a plain block comment, or none.
    Lines are kept without the leading star; empty lines are dropped. *)
Inductive comment : Type :=
| NoComment
| JSDoc (lines : list string)
| Block (lines : list string).

Definition comment_lines (c : comment) : list string :=
  match c with
  | NoComment => []
  | JSDoc ls | Block ls => ls
  end.

Inductive type_kind : Type := Class | Interface.

Record type_decl : Type := TypeDecl {
  td_kind : type_kind;
  td_name : string;
  td_extends : option string;
  td_doc : comment;
  td_members : list (comment * member)
}.

Inductive decl : Type :=
| DImport (alias from : string)
| DFunction (name : string) (doc : comment) (sg : signature)
| DType (td : type_decl)
| DAlias (name : string) (doc : comment) (t : ty).

Record module_decl : Type := ModuleDecl {
  md_name : string;
  md_doc : comment;
  md_body : list decl
}.

(** ** 2. The module ['firebird'], declaration by declaration

    Each definition below carries the name of the declaration it embeds and
    follows the order of the file. *)

Definition dq : string := String "034"%char EmptyString.

Definition req (n : string) (t : ty) : param := Param n Required t.
Definition opt (n : string) (t : ty) : param := Param n Optional t.
Definition rest (n : string) (t : ty) : param := Param n Rest t.

(** [Error | null], the first parameter of every callback of the file. *)
Definition ErrorOrNull : ty := TUnion [TRef "Error"; TNull].

(** [(err: Error | null) => void] *)
Definition err_callback : ty := TFun [req "err" ErrorOrNull] TVoid.

(** [function createConnection(): Connection;] *)
Definition createConnection : signature := Sig [] [] (TRef "Connection").

Definition createConnection_doc : comment :=
  JSDoc ["@see createConnection() method will create Firebird Connection object for you"].

Definition commitSync_notes : list string :=
  [ "@summary";
    "Synchronously commits current transaction.";
    "@description";
    "Notes:";
    "There is only one transaction associated with connection.";
    "Transacation is automatically started before any query if connection does not have active transaction (check @see inTransaction property).";
    "You also should note that DDL statements (altering database structure) are commited automatically.";
    "To run quieries in context of other transaction use @see Transaction object." ].

Definition Connection : type_decl := TypeDecl Class "Connection" None
  (JSDoc ["Handles database connection and queries. Supports Synchronous and Asynchronous operation."])
  [ (NoComment, MConstructor []);
    (JSDoc [ "Connects you to database,";
             "@param database a database name in Firebird notation, i.e. <hostname>:<path to database file | alias>";
             "@throws raises exception on error (try to catch it)." ],
     MMethod "connectSync"
       (Sig [] [req "db" TString; req "user" TString; req "pass" TString; req "role" TString] TVoid));
    (JSDoc [ "Asynchronously connects you to Database.";
             "@param database a database name in Firebird notation, i.e. <hostname>:<path to database file | alias>";
             "@param callback function(err), where err is error object in case of error." ],
     MMethod "connect"
       (Sig [] [req "db" TString; req "user" TString; req "pass" TString; req "role" TString;
                req "callback" err_callback] TVoid));
    (JSDoc ["A boolean readonly property indicating if Connection object is connected to database"],
     MProperty "connected" false TBoolean);
    (JSDoc [ "Executes SQL query.";
             "@param sql an SQL query to execute.";
             "@return object in case of success.";
             "@throws Raises error otherwise." ],
     MMethod "querySync" (Sig [] [req "sql" TString] (TRef "FBResult")));
    (JSDoc [ "Asynchronously executes query.";
             "@param sql an SQL query to execute.";
             "@param callback function(err,res), err - is error object or null, res - FBResult object." ],
     MMethod "query"
       (Sig [] [req "sql" TString;
                req "callback" (TFun [req "err" ErrorOrNull; req "res" (TRef "FBResult")] TVoid)] TVoid));
    (JSDoc [ "Registers connection to listen for firebird event name, called from PL\SQL (in stored procedures or triggers) with post_event 'name'.";
             "@description";
             "You may set callback for event with";
             "```js";
             "connection.on('fbevent', function(name, count){ <your code>));.";
             "```";
             "Where name is event name, and count is number of times event were posted.";
             "@param name Firebird Event Name." ],
     MMethod "addFBevent" (Sig [] [req "name" TString] TVoid));
    (JSDoc [ "Unsubscribes connection from getting events for name.";
             "@param name Firebird Event Name." ],
     MMethod "deleteFBevent" (Sig [] [req "name" TString] TVoid));
    (JSDoc commitSync_notes,
     MMethod "commitSync" (Sig [] [] TVoid));
    (JSDoc [ "Asynchronous commit transaction.";
             "@description";
             "Read notes in @see commitSync() .";
             "@param callback function(err), where err is error object in case of error." ],
     MMethod "commit" (Sig [] [req "callback" err_callback] TVoid));
    (JSDoc [ "Synchronously rollbacks current transaction.";
             "@description";
             "Read notes in @see commitSync() ." ],
     MMethod "rollbackSync" (Sig [] [] TVoid));
    (JSDoc [ "Asynchronously rollbacks current transaction.";
             "@description";
             "Read notes in @see commitSync() .";
             "@param callback function(err), where err is error object in case of error." ],
     MMethod "rollback" (Sig [] [req "callback" err_callback] TVoid));
    (JSDoc [ "Synchronously starts new default transaction.";
             "@description";
             "The default transaction should be not in started state before call to this method.";
             "Read notes in @see commitSync() ." ],
     MMethod "startSync" (Sig [] [] TVoid));
    (JSDoc [ "Asynchronously starts new default transaction.";
             "@description";
             "Read notes in @see commitSync() .";
             "@param callback function(err), where err is error object in case of error." ],
     MMethod "start" (Sig [] [req "callback" err_callback] TVoid));
    (JSDoc [ "Synchronously prepares SQL statement and returns FBStatement object.";
             "@param sql an SQL query to prepare." ],
     MMethod "prepareSync" (Sig [] [req "sql" TString] (TRef "FBStatement")));
    (JSDoc ["A boolean readonly property indicating if connection is in started transaction state."],
     MProperty "inTransaction" false TBoolean);
    (JSDoc [ "Creates new FBblob object and opens it for write.";
             "After finishing write operation and closing blob one may insert it in database passing as parameter to exec,";
             "execSync methods of @see FBStatement object." ],
     MMethod "newBlobSync" (Sig [] [] (TRef "FBBlob")));
    (JSDoc [ "Creates new Transaction object and starts new transaction.";
             "@returns created object." ],
     MMethod "startNewTransactionSync" (Sig [] [] (TRef "Transaction")));
    (JSDoc [ "Creates new Transaction object and starts new transaction.";
             "@param callback function(err, transaction), where err is error object in case of error, transaction - newly created transaction." ],
     MMethod "startNewTransaction"
       (Sig [] [req "callback"
                  (TFun [req "err" ErrorOrNull; req "transaction" (TRef "Transaction")] TVoid)] TVoid))
  ].

(** [type DataType = Date | string | number | FBBlob;] (the alternative
    [Integer] is commented out in the file). *)
Definition DataType : ty := TUnion [TRef "Date"; TString; TNumber; TRef "FBBlob"].

Definition DataType_doc : comment :=
  JSDoc [ "@description";
          "Here is Firebird to Node data type accordance:";
          "| Firebird  | Node      |";
          "| :-------  | :-------- |";
          "| DATE       |    Date   |";
          "| TIME       |    Date   |";
          "| TIMESTAMP |     Date   |";
          "| CHAR      |     String |";
          "| VARCHAR   |     String |";
          "| SMALLINT  |     Integer|";
          "| INTEGER   |     Integer|";
          "| NUMERIC   |     Number |";
          "| DECIMAL   |     Number |";
          "| FLOAT     |     Number |";
          "| DOUBLE    |     Number |";
          "| BLOB      |     FBblob |" ].

(** [number | "all"], the type of every [rowCount] parameter. *)
Definition RowCount : ty := TUnion [TNumber; TStrLit "all"].

(** [DataType[]]: a row as an array of field values. *)
Definition ArrayRow : ty := TArray (TRef "DataType").

(** [{[column: string]: DataType}]: a row as an object keyed by column. *)
Definition KeyedRow : ty := TIndexed "column" TString (TRef "DataType").

(** [(err: Error | null, eof: boolean) => void] *)
Definition eof_callback : ty := TFun [req "err" ErrorOrNull; req "eof" TBoolean] TVoid.

(** [(row: R) => void] *)
Definition row_callback (R : ty) : ty := TFun [req "row" R] TVoid.

(** The four overloads of [fetchSync], in the order of the file. *)
Definition fetchSync_any : signature :=
  Sig [] [req "rowCount" RowCount; req "asObject" TBoolean]
      (TUnion [TArray ArrayRow; TArray KeyedRow]).

Definition fetchSync_arrays : signature :=
  Sig [] [req "rowCount" RowCount; req "asObject" (TBoolLit false)]
      (TArray ArrayRow).

Definition fetchSync_objects : signature :=
  Sig [] [req "rowCount" RowCount; req "asObject" (TBoolLit true)]
      (TArray KeyedRow).

Definition fetchSync_typed : signature :=
  Sig [("T", TEmptyObject)] [req "rowCount" RowCount; req "asObject" (TBoolLit true)]
      (TArray (TRef "T")).

Definition fetchSync_overloads : list signature :=
  [fetchSync_any; fetchSync_arrays; fetchSync_objects; fetchSync_typed].

(** The four overloads of [fetch], in the order of the file. *)
Definition fetch_any : signature :=
  Sig [] [req "rowCount" RowCount; req "asObject" TBoolean;
          req "rowCallback" (row_callback (TUnion [ArrayRow; KeyedRow]));
          req "eofCallback" eof_callback] TVoid.

Definition fetch_arrays : signature :=
  Sig [] [req "rowCount" RowCount; req "asObject" (TBoolLit false);
          req "rowCallback" (row_callback ArrayRow);
          req "eofCallback" eof_callback] TVoid.

Definition fetch_objects : signature :=
  Sig [] [req "rowCount" RowCount; req "asObject" (TBoolLit true);
          req "rowCallback" (row_callback KeyedRow);
          req "eofCallback" eof_callback] TVoid.

Definition fetch_typed : signature :=
  Sig [("T", TEmptyObject)]
         [req "rowCount" RowCount; req "asObject" (TBoolLit true);
          req "rowCallback" (row_callback (TRef "T"));
          req "eofCallback" eof_callback] TVoid.

Definition fetch_overloads : list signature :=
  [fetch_any; fetch_arrays; fetch_objects; fetch_typed].

(** The documentation comment stands in front of the first overload of a
    method; the following overloads have none. *)
Definition overloaded (name : string) (doc : comment) (sgs : list signature)
  : list (comment * member) :=
  match sgs with
  | [] => []
  | sg :: more =>
      (doc, MMethod name sg) :: map (fun s => (NoComment, MMethod name s)) more
  end.

Definition FBResult : type_decl := TypeDecl Class "FBResult" None
  (JSDoc [ "Represents results of SQL query if any.";
           "You should use this object to fetch rows from database.";
           "Each row may be represented as array of field values or as object with named fields.";
           "@see DataType" ])
  (overloaded "fetchSync"
     (JSDoc [ "@summary";
              "Synchronously fetches result rows.";
              "@description";
              "If you pass " ++ dq ++ "all" ++ dq ++ " as rowCount - it will fetch all result rows.";
              "If you pass less rowCount than are actually in result, it will return specified number of rows.";
              "You may call fetchSync multiple times until all rows will be fetched.";
              "If you specify more rowCount than available it will return only actual number of rows.";
              "@param rowCount number of rows to fetch from results;";
              "@param asObject format of returned rows. When false - methods returns array of array, when true - array of objects." ])
     fetchSync_overloads
   ++
   overloaded "fetch"
     (JSDoc [ "Asynchronously fetches rows one by one.";
              "@param rowCount number of rows to fetch from results";
              "@param asObject format of returned rows. When false - methods returns array of array, when true - array of objects";
              "@param rowCallback function(row), row - Array or Object (depends on asObject parameter) representing single row from result; called for each fetched row.";
              "@param eofCallback function(err,eof), err - Error object in case of error, or null; eof - true | false. called when whole operation is complete." ])
     fetch_overloads).

Definition Transaction : type_decl := TypeDecl Interface "Transaction" None
  (JSDoc [ "Represents SQL transaction.";
           "@description";
           "To get instance of this object call @see startNewTransactionSync or @see startNewTransaction methods of @see Connection object.";
           "Transaction objects may be reused after commit or rollback." ])
  [ (JSDoc [ "Executes SQL query in context of this transaction. Returns FBResult object in case of success. Raises error otherwise.";
             "@param sql an SQL query to execute." ],
     MMethod "querySync" (Sig [] [req "sql" TString] TVoid));
    (JSDoc [ "Asynchronously executes query in context of this transaction.";
             "@param sql an SQL query to execute.";
             "@param callback err - is error object or null, res - FBResult object." ],
     MMethod "query"
       (Sig [] [req "sql" TString;
                req "callback" (TFun [req "err" ErrorOrNull; req "res" (TRef "FBResult")] TVoid)] TVoid));
    (JSDoc [ "Synchronously commits this transaction.";
             "@description";
             "Notes:";
             "Transacation is automatically started before any query in context of this object";
             "if this object does not have active transaction (check inTransaction property).";
             "You also should note that DDL statements (altering database structure) are commited automatically." ],
     MMethod "commitSync" (Sig [] [] TVoid));
    (JSDoc [ "Asynchronous commit transaction.";
             "@description";
             "Read notes in @see commitSync() .";
             "@param callback function(err), where err is error object in case of error." ],
     MMethod "commit" (Sig [] [req "callback" err_callback] TVoid));
    (JSDoc [ "Synchronously rollbacks transaction.";
             "@description";
             "Read notes in @see commitSync() ." ],
     MMethod "rollbackSync" (Sig [] [] TVoid));
    (JSDoc [ "Asynchronously rollbacks transaction.";
             "@description";
             "Read notes in @see commitSync() .";
             "@param callback function(err), where err is error object in case of error." ],
     MMethod "rollback" (Sig [] [req "callback" err_callback] TVoid));
    (JSDoc [ "Synchronously starts transaction.";
             "@description";
             "The transaction should be not in started state before call to this method.";
             "Read notes in @see commitSync() .";
             "See @see inTransaction property." ],
     MMethod "startSync" (Sig [] [] TVoid));
    (JSDoc [ "Asynchronously starts new transaction.";
             "@description";
             "Read notes in @see commitSync() .";
             "@param callback function(err), where err is error object in case of error." ],
     MMethod "start" (Sig [] [req "callback" err_callback] TVoid));
    (JSDoc [ "Synchronously prepares SQL statement";
             "@param sql an SQL query to prepare.";
             "@returns object in context of this transaction." ],
     MMethod "prepareSync" (Sig [] [req "sql" TString] (TRef "FBStatement")));
    (Block ["A boolean readonly property indicating if this transaction is in started state."],
     MProperty "inTransaction" false TBoolean)
  ].

Definition FBStatement : type_decl := TypeDecl Class "FBStatement" (Some "FBResult")
  (JSDoc [ "Represents prepared SQL query (returned by @see Connection.prepare() and @see Connection.prepareSync()).";
           "@see FBStatement is derived form @see FBResult class.";
           "So it can fetch rows just like @see FBresult object after call to @see execSync, exec methods." ])
  [ (JSDoc [ "Synchronously executes prepared statement with given parameters.";
             "@description";
             "You may fetch rows with methods inherited from @see FBResult.";
             "@see Statement is executed in context of default connection transaction.";
             "@param params parameters of prepared statement in the same order as in SQL and with appropriate types." ],
     MMethod "execSync" (Sig [] [rest "params" (TArray (TRef "DataType"))] TVoid));
    (JSDoc ["Same as @see execSync but executes statement in context of given @see Transaction obejct."],
     MMethod "execInTransSync"
       (Sig [] [req "transaction" (TRef "Transaction");
                rest "params" (TArray (TRef "DataType"))] TVoid));
    (JSDoc [ "Asynchronously executes prepared statement with given parameters.";
             "@description";
             "@see FBStatement emits 'result' or 'error' event.";
             "You may fetch rows with methods inherited from @see FBResult after 'result' event emitted.";
             "Statement is executed in context of default connection transaction.";
             "@param params parameters of prepared statement in the same order as in SQL and with appropriate types." ],
     MMethod "exec" (Sig [] [rest "params" (TArray (TRef "DataType"))] TVoid));
    (JSDoc ["Same as @see exec but executes statement in context of given @see Transaction obejct."],
     MMethod "execInTrans"
       (Sig [] [req "transaction" (TRef "Transaction");
                rest "params" (TArray (TRef "DataType"))] TVoid))
  ].

(** [(err: Error | null, buffer: Buffer, len: number) => void] *)
Definition read_callback : ty :=
  TFun [req "err" ErrorOrNull; req "buffer" (TRef "Buffer"); req "len" TNumber] TVoid.

Definition FBBlob : type_decl := TypeDecl Interface "FBBlob" None
  (JSDoc ["Represents BLOB data type."])
  ([ (JSDoc ["Synchronously opens blob for reading."],
      MMethod "_openSync" (Sig [] [] TVoid));
     (JSDoc ["Synchronously closes previously opened blob."],
      MMethod "_closeSync" (Sig [] [] TVoid));
     (JSDoc [ "Synchronously reads BLOB segment (chunk) into buffer. Tries to fill whole buffer with data.";
              "@param buffer Node buffer to fill with data.";
              "@returns actual number of bytes read." ],
      MMethod "_readSync" (Sig [] [req "buffer" (TRef "Buffer")] TNumber));
     (JSDoc [ "Asynchronously reads BLOB segment (chunk) into buffer. Tries to fill whole buffer with data.";
              "@param buffer Node buffer to fill with data.";
              "@param callback function(err,buffer,len), err - Error object in case of error, or null;buffer - buffer filled with data; len - actual data length." ],
      MMethod "_read"
        (Sig [] [req "buffer" (TRef "Buffer"); req "callback" read_callback] TVoid)) ]
   ++
   overloaded "_readAll"
     (JSDoc [ "Asynchronously reads all data from BLOB field.";
              "Object emits events while reading data error, drain',end`.";
              "@param initialSize - optional, initial result buffer to allocate, default = 0";
              "@param chunkSize - optional, size of chunk used to read data, default = 1024";
              "@param callback - optional, function (err, buffer, len), err - Error object in case of error, or null;buffer - buffer filled with data; len - actual data length." ])
     [ Sig [] [opt "initialSize" TNumber; opt "chunkSize" TNumber; opt "callback" read_callback] TVoid;
       Sig [] [req "initialSize" TNumber; req "callback" read_callback] TVoid;
       Sig [] [req "callback" read_callback] TVoid ]
   ++
   [ (JSDoc [ "Synchronously writes BLOB segment (chunk) from buffer.";
              "@param buffer Node buffer to write from to blob;";
              "@param len optional length parameter, if specified only len bytes from buffer will be writen.";
              "@returns number of bytes actually writen." ],
      MMethod "_writeSync" (Sig [] [req "buffer" (TRef "Buffer"); opt "len" TNumber] TNumber));
     (JSDoc [ "Asynchronously writes BLOB segment (chunk) from buffer and calls callback function if any.";
              "@param buffer Node buffer to write from to blob;";
              "@param len optional length parameter, if specified only len bytes from buffer will be writen.";
              "@param callback function(err), err - Error object in case of error, or null;" ],
      MMethod "_write"
        (Sig [] [req "buffer" (TRef "Buffer"); opt "len" TNumber; opt "callback" err_callback] TVoid)) ]).

(** [class Stream extends stream.Stream]; the base class comes from the
    imported module ['stream'] and is not declared here. *)
Definition Stream : type_decl := TypeDecl Class "Stream" (Some "stream.Stream")
  (JSDoc [ "Represents BLOB stream.";
           "@description";
           "Create BLOB stream using";
           "```js";
           "var strm = new fb.Stream(FBblob);.";
           "```";
           "You may pipe strm to/from NodeJS Stream objects (fs or socket).";
           "You may also look at [NodeJS Streams reference](https://nodejs.org/api/stream.html)." ])
  ([ (NoComment, MConstructor [req "blob" (TRef "FBBlob")]);
     (Block ["NodeJS.ReadStream"], MProperty "readable" false TBoolean);
     (NoComment, MMethod "pause" (Sig [] [] TThis));
     (NoComment, MMethod "resume" (Sig [] [] TThis));
     (Block ["NodeJS.WriteStream"], MProperty "writable" false TBoolean) ]
   ++
   overloaded "write" NoComment
     [ Sig [] [req "buffer" (TUnion [TRef "Buffer"; TString]); opt "cb" (TRef "Function")] TBoolean;
       Sig [] [req "str" TString; opt "encoding" TString; opt "cb" (TRef "Function")] TBoolean ]
   ++
   overloaded "end" NoComment
     [ Sig [] [] TThis;
       Sig [] [req "buffer" (TRef "Buffer"); opt "cb" (TRef "Function")] TThis;
       Sig [] [req "str" TString; opt "cb" (TRef "Function")] TThis;
       Sig [] [req "str" TString; opt "encoding" TString; opt "cb" (TRef "Function")] TThis ]
   ++
   [ (NoComment, MMethod "destroy" (Sig [] [opt "error" (TRef "Error")] TThis));
     (NoComment, MMethod "check_destroyed" (Sig [] [] TVoid)) ]).

(** [declare module 'firebird' { ... }] *)
Definition firebird : module_decl := ModuleDecl "firebird"
  (JSDoc [ "This is a type declaration file for 'firebird' package.";
           "Original document is [here](https://www.npmjs.com/package/firebird)." ])
  [ DImport "stream" "stream";
    DFunction "createConnection" createConnection_doc createConnection;
    DType Connection;
    DAlias "DataType" DataType_doc DataType;
    DType FBResult;
    DType Transaction;
    DType FBStatement;
    DType FBBlob;
    DType Stream ].

(** ** 3. Reading the declarations *)

(** *** 3.1 Types, members, names *)

Definition member_name (m : member) : string :=
  match m with
  | MConstructor _ => "constructor"
  | MProperty n _ _ => n
  | MMethod n _ => n
  end.

Definition is_method (m : member) : bool :=
  match m with MMethod _ _ => true | _ => false end.

Definition is_property (m : member) : bool :=
  match m with MProperty _ _ _ => true | _ => false end.

(** The classes and interfaces a module declares. *)
Fixpoint type_decls (ds : list decl) : list type_decl :=
  match ds with
  | [] => []
  | DType td :: more => td :: type_decls more
  | _ :: more => type_decls more
  end.

Definition find_type (md : module_decl) (n : string) : option type_decl :=
  find (fun td => String.eqb (td_name td) n) (type_decls (md_body md)).

(** The name every declaration introduces in the module scope. *)
Definition decl_name (d : decl) : string :=
  match d with
  | DImport a _ => a
  | DFunction n _ _ => n
  | DType td => td_name td
  | DAlias n _ _ => n
  end.

Definition is_import (d : decl) : bool :=
  match d with DImport _ _ => true | _ => false end.

(** What the module itself declares (the import brings a foreign name). *)
Definition declared_names (md : module_decl) : list string :=
  map decl_name (filter (fun d => negb (is_import d)) (md_body md)).

Definition own_members (td : type_decl) : list member := map snd (td_members td).

Definition declares (td : type_decl) (n : string) : bool :=
  existsb (fun m => String.eqb (member_name m) n) (own_members td).

(** Members of a type with those it inherits through [extends]: a member
    of the base is inherited unless the type declares the name itself.  A
    base that the module does not declare (here [stream.Stream]) adds
    nothing that this file can see.  Constructors belong to the class
    and not to its instances, so they are not listed among the inherited
    members.  [fuel] bounds the length of the [extends] chain. *)
Fixpoint members_upto (fuel : nat) (md : module_decl) (td : type_decl) : list member :=
  own_members td ++
  match fuel with
  | 0 => []
  | S f =>
      match td_extends td with
      | None => []
      | Some b =>
          match find_type md b with
          | None => []
          | Some base =>
              filter (fun m => negb (declares td (member_name m)))
                     (filter (fun m => negb (String.eqb (member_name m) "constructor"))
                             (members_upto f md base))
          end
      end
  end.

Definition members (md : module_decl) (td : type_decl) : list member :=
  members_upto (length (md_body md)) md td.

(** The signatures declared under one method name, in declaration order. *)
Fixpoint overloads_in (ms : list member) (n : string) : list signature :=
  match ms with
  | [] => []
  | MMethod n' sg :: more =>
      if String.eqb n' n then sg :: overloads_in more n else overloads_in more n
  | _ :: more => overloads_in more n
  end.

Definition overloads (td : type_decl) (n : string) : list signature :=
  overloads_in (own_members td) n.

(** Names without repetition, first occurrence first. *)
Fixpoint dedup (ns : list string) : list string :=
  match ns with
  | [] => []
  | n :: more => n :: filter (fun x => negb (String.eqb x n)) (dedup more)
  end.

Definition method_names (td : type_decl) : list string :=
  dedup (map member_name (filter is_method (own_members td))).

Definition property_names (td : type_decl) : list string :=
  dedup (map member_name (filter is_property (own_members td))).

(** The type of a declared property, and whether it is [readonly]. *)
Definition property (td : type_decl) (n : string) : option (bool * ty) :=
  match find (fun m => is_property m && String.eqb (member_name m) n) (own_members td) with
  | Some (MProperty _ ro t) => Some (ro, t)
  | _ => None
  end.

(** TypeScript accepts [x.n = v] from any code holding [x] exactly when
    [n] is a property declared without the [readonly] modifier. *)
Definition assignable_property (td : type_decl) (n : string) : bool :=
  match property td n with
  | Some (ro, _) => negb ro
  | None => false
  end.

Definition constructors (td : type_decl) : list (list param) :=
  flat_map (fun m => match m with MConstructor ps => [ps] | _ => [] end) (own_members td).

(** *** 3.2 Documentation comments *)

(** The comment in front of the first member called [n]. *)
Definition member_comment (td : type_decl) (n : string) : comment :=
  match find (fun cm => String.eqb (member_name (snd cm)) n) (td_members td) with
  | Some (c, _) => c
  | None => NoComment
  end.

Definition member_doc (td : type_decl) (n : string) : list string :=
  comment_lines (member_comment td n).

(** [contains sub s]: the text [sub] occurs in [s]. *)
Fixpoint contains (sub s : string) : bool :=
  prefix sub s ||
  match s with
  | EmptyString => false
  | String _ s' => contains sub s'
  end.

Definition doc_says (lines : list string) (sub : string) : bool :=
  existsb (contains sub) lines.

(** *** 3.3 Type expressions *)

Definition pmodifier_eqb (a b : pmodifier) : bool :=
  match a, b with
  | Required, Required | Optional, Optional | Rest, Rest => true
  | _, _ => false
  end.

(** Syntactic identity of type expressions. *)
Fixpoint ty_eqb (a b : ty) {struct a} : bool :=
  match a, b with
  | TVoid, TVoid | TBoolean, TBoolean | TNumber, TNumber | TString, TString
  | TNull, TNull | TThis, TThis | TEmptyObject, TEmptyObject => true
  | TBoolLit x, TBoolLit y => Bool.eqb x y
  | TStrLit x, TStrLit y => String.eqb x y
  | TRef x, TRef y => String.eqb x y
  | TArray x, TArray y => ty_eqb x y
  | TUnion xs, TUnion ys =>
      (fix all2 (xs ys : list ty) {struct xs} : bool :=
         match xs, ys with
         | [], [] => true
         | x :: xs', y :: ys' => ty_eqb x y && all2 xs' ys'
         | _, _ => false
         end) xs ys
  | TIndexed k kx vx, TIndexed k' ky vy =>
      String.eqb k k' && ty_eqb kx ky && ty_eqb vx vy
  | TFun ps r, TFun qs s =>
      (fix all2 (ps qs : list param) {struct ps} : bool :=
         match ps, qs with
         | [], [] => true
         | Param n m t :: ps', Param n' m' t' :: qs' =>
             String.eqb n n' && pmodifier_eqb m m' && ty_eqb t t' && all2 ps' qs'
         | _, _ => false
         end) ps qs
      && ty_eqb r s
  | _, _ => false
  end.

(** [mentions n t]: the type name [n] occurs in [t]. *)
Fixpoint mentions (n : string) (t : ty) {struct t} : bool :=
  match t with
  | TRef x => String.eqb x n
  | TArray e => mentions n e
  | TUnion alts =>
      (fix any (ts : list ty) : bool :=
         match ts with
         | [] => false
         | x :: more => mentions n x || any more
         end) alts
  | TIndexed _ k v => mentions n k || mentions n v
  | TFun ps r =>
      (fix any (qs : list param) : bool :=
         match qs with
         | [] => false
         | Param _ _ x :: more => mentions n x || any more
         end) ps
      || mentions n r
  | _ => false
  end.

(** Replacing type parameters by type arguments. *)
Fixpoint subst (sigma : list (string * ty)) (t : ty) {struct t} : ty :=
  match t with
  | TRef x =>
      match find (fun b => String.eqb (fst b) x) sigma with
      | Some (_, u) => u
      | None => t
      end
  | TArray e => TArray (subst sigma e)
  | TUnion alts =>
      TUnion ((fix each (ts : list ty) : list ty :=
                 match ts with
                 | [] => []
                 | x :: more => subst sigma x :: each more
                 end) alts)
  | TIndexed k kt vt => TIndexed k (subst sigma kt) (subst sigma vt)
  | TFun ps r =>
      TFun ((fix each (qs : list param) : list param :=
               match qs with
               | [] => []
               | Param n m x :: more => Param n m (subst sigma x) :: each more
               end) ps)
           (subst sigma r)
  | _ => t
  end.

(** *** 3.4 Where values of a type come from *)

(** The type aliases of a module, as a substitution. *)
Fixpoint aliases (ds : list decl) : list (string * ty) :=
  match ds with
  | [] => []
  | DAlias n _ t :: more => (n, t) :: aliases more
  | _ :: more => aliases more
  end.

(** A type with the aliases of the module unfolded ([fuel] levels deep). *)
Fixpoint unfold_upto (fuel : nat) (al : list (string * ty)) (t : ty) : ty :=
  match fuel with
  | 0 => t
  | S f => unfold_upto f al (subst al t)
  end.

Definition unfold (md : module_decl) (t : ty) : ty :=
  let al := aliases (md_body md) in unfold_upto (length al) al t.

(** A signature hands out a value of type [n] when its result mentions [n]
    or when it takes a callback one of whose parameters mentions [n]
    (aliases unfolded). *)
Definition callback_receives (md : module_decl) (n : string) (p : param) : bool :=
  match pty p with
  | TFun qs _ => existsb (fun q => mentions n (unfold md (pty q))) qs
  | _ => false
  end.

Definition hands_out (md : module_decl) (n : string) (sg : signature) : bool :=
  mentions n (unfold md (ret sg)) || existsb (callback_receives md n) (params sg).

Definition member_hands_out (md : module_decl) (n : string) (m : member) : bool :=
  match m with
  | MMethod _ sg => hands_out md n sg
  | MProperty _ _ t => mentions n (unfold md t)
  | MConstructor _ => false
  end.

(** A class can be instantiated with [new]; an interface cannot. *)
Definition constructible (td : type_decl) : bool :=
  match td_kind td with Class => true | Interface => false end.

(** Every place of the module that hands out a value of type [n], as a
    pair (owner, member); a module-level function is owned by the module,
    and [new] of a class called [n] is listed as its constructor. *)
Definition sources_of_decl (md : module_decl) (n : string) (d : decl)
  : list (string * string) :=
  match d with
  | DImport _ _ => []
  | DAlias _ _ _ => []
  | DFunction f _ sg => if hands_out md n sg then [(md_name md, f)] else []
  | DType td =>
      (if constructible td && String.eqb (td_name td) n
       then [(td_name td, "constructor")] else [])
      ++ map (fun m => (td_name td, m))
           (dedup (map member_name (filter (member_hands_out md n) (own_members td))))
  end.

Definition sources_of (md : module_decl) (n : string) : list (string * string) :=
  flat_map (sources_of_decl md n) (md_body md).

(** *** 3.5 Which overload a call takes

    A call site is described by what the checker knows of it: the explicit
    type arguments and the static types of the arguments.  TypeScript
    orders the overloads of a method so that the signatures having a
    parameter of literal type (the specialized signatures) come first,
    each group in declaration order, and takes the first one the call fits.
    When type arguments are written, only signatures with as many type
    parameters are considered; when none are, they are inferred from the
    arguments. *)

Record call : Type := Call {
  targs : list ty;
  args : list ty
}.

Definition is_literal (t : ty) : bool :=
  match t with TBoolLit _ | TStrLit _ => true | _ => false end.

Definition specialized (sg : signature) : bool :=
  existsb (fun p => is_literal (pty p)) (params sg).

Definition candidates (sgs : list signature) : list signature :=
  filter specialized sgs ++ filter (fun sg => negb (specialized sg)) sgs.

(** [accepts tgt src]: a value of the non-union type [src] may be passed
    where [tgt] is expected.  Identical types fit; a literal fits its
    primitive type; a union accepts what one of its alternatives accepts;
    [{}] accepts everything but [null] and [void].  This is a part of
    what the checker accepts, never more: a class, an interface or a
    function type is accepted at the identical type only, where the
    checker also compares members and parameters.  The theorems below use
    it at primitive types, literals, their unions, [{}] and identical
    types, where both agree. *)
Fixpoint accepts (tgt src : ty) {struct tgt} : bool :=
  ty_eqb src tgt ||
  match tgt with
  | TBoolean => match src with TBoolLit _ => true | _ => false end
  | TString => match src with TStrLit _ => true | _ => false end
  | TUnion alts =>
      (fix any (ts : list ty) : bool :=
         match ts with
         | [] => false
         | t :: more => accepts t src || any more
         end) alts
  | TEmptyObject => match src with TNull | TVoid => false | _ => true end
  | _ => false
  end.

(** A union is passed where each of its alternatives may be, unions
    within unions included. *)
Fixpoint assignable (src tgt : ty) {struct src} : bool :=
  match src with
  | TUnion alts =>
      ty_eqb src tgt ||
      (fix each (ts : list ty) : bool :=
         match ts with
         | [] => true
         | x :: more => assignable x tgt && each more
         end) alts
  | _ => accepts tgt src
  end.

(** An argument passes for a parameter when its type is assignable to the
    declared type, as written or with the aliases of the module unfolded
    on both sides. *)
Definition passes (md : module_decl) (a t : ty) : bool :=
  assignable a t || assignable a (unfold md t)
  || assignable (unfold md a) (unfold md t).

(** Arguments against parameters: required parameters need an argument,
    optional ones may go without, a rest parameter [...p: E[]] takes all
    that remain. *)
Fixpoint args_fit (md : module_decl) (ps : list param) (actuals : list ty)
  {struct ps} : bool :=
  match ps with
  | [] => match actuals with [] => true | _ => false end
  | Param _ Rest t :: _ =>
      match t with
      | TArray e => forallb (fun a => passes md a e) actuals
      | _ => false
      end
  | Param _ m t :: ps' =>
      match actuals with
      | [] => match m with Optional => args_fit md ps' [] | _ => false end
      | a :: more => passes md a t && args_fit md ps' more
      end
  end.

Definition subst_param (sigma : list (string * ty)) (p : param) : param :=
  Param (pname p) (pmod p) (subst sigma (pty p)).

Definition subst_sig (sigma : list (string * ty)) (sg : signature) : signature :=
  Sig [] (map (subst_param sigma) (params sg)) (subst sigma (ret sg)).

(** What the type parameters [tps] must stand for so that the declared
    type [formal] is the type [actual] of the argument: a type parameter
    stands for what is found in its place, under arrays and in the
    parameters and the result of a function type. *)
Fixpoint infer (tps : list string) (formal actual : ty) {struct formal}
  : list (string * ty) :=
  match formal with
  | TRef x => if existsb (String.eqb x) tps then [(x, actual)] else []
  | TArray f =>
      match actual with
      | TArray a => infer tps f a
      | _ => []
      end
  | TFun fps fr =>
      match actual with
      | TFun aps ar =>
          ((fix each (fs : list param) (acts : list param) {struct fs}
              : list (string * ty) :=
              match fs with
              | [] => []
              | Param _ _ f :: fs' =>
                  match acts with
                  | [] => []
                  | a :: acts' => (infer tps f (pty a) ++ each fs' acts')%list
                  end
              end) fps aps
           ++ infer tps fr ar)%list
      | _ => []
      end
  | _ => []
  end.

(** The type arguments of a call that writes none: each type parameter
    stands for what the first argument that fixes it says, and for its
    constraint when no argument does. *)
Definition inferred (sg : signature) (actuals : list ty) : list (string * ty) :=
  let found :=
    flat_map (fun pa => infer (map fst (tparams sg)) (pty (fst pa)) (snd pa))
             (combine (params sg) actuals) in
  map (fun tp =>
         (fst tp,
          match find (fun b => String.eqb (fst b) (fst tp)) found with
          | Some (_, t) => t
          | None => snd tp
          end)) (tparams sg).

(** A signature with its type parameters filled in: by the written type
    arguments, which must be as many as the type parameters, or else by
    the inferred ones; either way each must satisfy its constraint. *)
Definition instantiate (tas actuals : list ty) (sg : signature) : option signature :=
  let sigma :=
    match tas with
    | [] => Some (inferred sg actuals)
    | _ => if Nat.eqb (length tas) (length (tparams sg))
           then Some (combine (map fst (tparams sg)) tas)
           else None
    end in
  match sigma with
  | Some bs =>
      if forallb (fun bc => assignable (snd (fst bc)) (snd (snd bc)))
                 (combine bs (tparams sg))
      then Some (subst_sig bs sg)
      else None
  | None => None
  end.

Definition fits (md : module_decl) (c : call) (sg : signature) : option signature :=
  match instantiate (targs c) (args c) sg with
  | Some inst => if args_fit md (params inst) (args c) then Some inst else None
  | None => None
  end.

(** The overload a call takes, as declared and as instantiated; [None]
    when the call fits no overload and is rejected. *)
Fixpoint first_fit (md : module_decl) (c : call) (sgs : list signature)
  : option (signature * signature) :=
  match sgs with
  | [] => None
  | sg :: more =>
      match fits md c sg with
      | Some inst => Some (sg, inst)
      | None => first_fit md c more
      end
  end.

Definition resolve (md : module_decl) (sgs : list signature) (c : call)
  : option (signature * signature) :=
  first_fit md c (candidates sgs).

(** The static type of the call expression. *)
Definition call_type (md : module_decl) (sgs : list signature) (c : call) : option ty :=
  option_map (fun r => ret (snd r)) (resolve md sgs c).

(** The declared type of the parameter called [n]. *)
Definition param_type (sg : signature) (n : string) : option ty :=
  option_map pty (find (fun p => String.eqb (pname p) n) (params sg)).

(** *** 3.6 Shapes of signatures *)


(** [error_first sg n]: the parameter [n] of [sg] is a callback that
    returns nothing and whose first parameter is [err: Error | null]. *)
Definition error_first (sg : signature) (n : string) : bool :=
  match param_type sg n with
  | Some (TFun (Param e _ x :: _) TVoid) => String.eqb e "err" && ty_eqb x ErrorOrNull
  | _ => false
  end.

(** How the parameter called [n] is written. *)
Definition param_modifier (sg : signature) (n : string) : option pmodifier :=
  option_map pmod (find (fun p => String.eqb (pname p) n) (params sg)).





(** The properties of the module that carry the [readonly] modifier. *)
Definition readonly_properties (md : module_decl) : list (string * string) :=
  flat_map
    (fun td =>
       flat_map (fun m => match m with
                          | MProperty n true _ => [(td_name td, n)]
                          | _ => []
                          end) (own_members td))
    (type_decls (md_body md)).

(** The members of a type whose comment contains [sub]. *)
Definition members_documented_with (td : type_decl) (sub : string) : list string :=
  dedup (map (fun cm => member_name (snd cm))
             (filter (fun cm => doc_says (comment_lines (fst cm)) sub) (td_members td))).

(** *** 3.7 The capabilities of a connection

    The specification credits [Connection] with five capabilities.  For
    four of them the table assigns a method of [Connection] to the
    capability on the word of its documentation comment, quoted in the
    third column.  Closing has no row: a method counts as closing by what
    its own name or comment says, see [closes]. *)

Inductive capability : Type :=
| OpenSession
| CloseSession
| RunQueries
| DefaultTransaction
| DatabaseEvents.

Definition capability_eqb (a b : capability) : bool :=
  match a, b with
  | OpenSession, OpenSession | CloseSession, CloseSession
  | RunQueries, RunQueries | DefaultTransaction, DefaultTransaction
  | DatabaseEvents, DatabaseEvents => true
  | _, _ => false
  end.

Definition Connection_purposes : list (string * capability * string) :=
  [ ("connectSync", OpenSession, "Connects you to database,");
    ("connect", OpenSession, "Asynchronously connects you to Database.");
    ("querySync", RunQueries, "Executes SQL query.");
    ("query", RunQueries, "Asynchronously executes query.");
    ("addFBevent", DatabaseEvents,
     "Registers connection to listen for firebird event name, called from PL\SQL (in stored procedures or triggers) with post_event 'name'.");
    ("deleteFBevent", DatabaseEvents, "Unsubscribes connection from getting events for name.");
    ("commitSync", DefaultTransaction, "Synchronously commits current transaction.");
    ("commit", DefaultTransaction, "Asynchronous commit transaction.");
    ("rollbackSync", DefaultTransaction, "Synchronously rollbacks current transaction.");
    ("rollback", DefaultTransaction, "Asynchronously rollbacks current transaction.");
    ("startSync", DefaultTransaction, "Synchronously starts new default transaction.");
    ("start", DefaultTransaction, "Asynchronously starts new default transaction.") ].

Definition purpose (n : string) : option capability :=
  option_map (fun row => snd (fst row))
             (find (fun row => String.eqb (fst (fst row)) n) Connection_purposes).

Definition lower_ascii (c : ascii) : ascii :=
  let n := nat_of_ascii c in
  if Nat.leb 65 n && Nat.leb n 90 then ascii_of_nat (n + 32) else c.

Fixpoint lower (s : string) : string :=
  match s with
  | EmptyString => EmptyString
  | String c s' => String (lower_ascii c) (lower s')
  end.

(** The words by which the name of a method says that it closes, and
    those by which its comment does. *)
Definition closing_names : list string :=
  ["close"; "disconnect"; "detach"; "shutdown"; "dispose"; "destroy"; "quit"; "end";
   "release"; "finish"; "terminate"; "logout"; "logoff"; "stop"; "exit"; "free"].

Definition closing_phrases : list string :=
  ["closes"; "disconnect"; "detach"; "shuts down"; "terminate"; "releases"; "logs out"].

(** [closes cm]: the declared member reads as closing what was opened, by
    its name or by its comment, whatever the case of the letters.  The
    test errs on the side of finding one: a method that it does not find
    in a type says nowhere that it closes. *)
Definition closes (cm : comment * member) : bool :=
  existsb (fun w => contains w (lower (member_name (snd cm)))) closing_names
  || existsb (fun w => doc_says (map lower (comment_lines (fst cm))) w) closing_phrases.

(** [serves c cm]: the declared member [cm] is a method for [c]. *)
Definition serves (c : capability) (cm : comment * member) : bool :=
  is_method (snd cm) &&
  match c with
  | CloseSession => closes cm
  | _ =>
      match purpose (member_name (snd cm)) with
      | Some c' => capability_eqb c c'
      | None => false
      end
  end.

(** The methods a type declares for a capability. *)
Definition provided_by (td : type_decl) (c : capability) : list string :=
  dedup (map (fun cm => member_name (snd cm)) (filter (serves c) (td_members td))).

(** A type provides a capability when it declares a method for it. *)
Definition provides (td : type_decl) (c : capability) : Prop :=
  exists cm, In cm (td_members td) /\ serves c cm = true.

(** The methods of a type that are for none of the five capabilities. *)
Definition other_methods (td : type_decl) : list string :=
  dedup (map (fun cm => member_name (snd cm))
             (filter (fun cm =>
                        is_method (snd cm) &&
                        negb (existsb (fun c => serves c cm)
                                [OpenSession; CloseSession; RunQueries;
                                 DefaultTransaction; DatabaseEvents]))
                     (td_members td))).

(** A row of the table is justified when the quoted sentence is a line of
    the documentation comment of the method in [td]. *)
Definition justified (td : type_decl) (row : string * capability * string) : bool :=
  existsb (String.eqb (snd row)) (member_doc td (fst (fst row))).

(** *** 3.8 The API families of the module

    The specification advertises five families; each declaration of the
    module scope belongs to one. *)

Inductive family : Type :=
| Connecting
| Queries
| Transactions
| PreparedStatements
| BlobStreaming.

Definition family_of (n : string) : option family :=
  option_map snd
    (find (fun row => String.eqb (fst row) n)
       [ ("createConnection", Connecting);
         ("Connection", Connecting);
         ("DataType", Queries);
         ("FBResult", Queries);
         ("Transaction", Transactions);
         ("FBStatement", PreparedStatements);
         ("FBBlob", BlobStreaming);
         ("Stream", BlobStreaming) ]).

(** The module-level function called [n]. *)
Definition find_function (md : module_decl) (n : string) : option signature :=
  match find (fun d => match d with
                       | DFunction f _ _ => String.eqb f n
                       | _ => false
                       end) (md_body md) with
  | Some (DFunction _ _ sg) => Some sg
  | _ => None
  end.

(** *** 3.9 Every signature of the module *)

(** The file opens with a reference to the typings of the runtime, which
    bring the ambient type [Buffer]; [Date], [Error] and [Function] are
    ambient in the language itself. *)
Definition reference_types : list string := ["node"].

Definition ambient_names : list string := ["Date"; "Error"; "Function"; "Buffer"].

Definition methods_of (td : type_decl) : list (string * signature) :=
  flat_map (fun m => match m with MMethod n sg => [(n, sg)] | _ => [] end)
           (own_members td).

(** Owner, name and signature of every method of every declared type and
    of every function of the module scope (owned by the module). *)
Definition signatures_of_decl (md : module_decl) (d : decl)
  : list (string * string * signature) :=
  match d with
  | DFunction f _ sg => [(md_name md, f, sg)]
  | DType td => map (fun ns => (td_name td, fst ns, snd ns)) (methods_of td)
  | _ => []
  end.

Definition all_signatures (md : module_decl) : list (string * string * signature) :=
  flat_map (signatures_of_decl md) (md_body md).

(** *** 3.10 Callbacks *)

(** A function type written out, [(...) => ...]. *)
Definition is_function_type (t : ty) : bool :=
  match t with TFun _ _ => true | _ => false end.

(** A parameter that can be called: a written function type or the
    ambient [Function]. *)
Definition is_callable (t : ty) : bool :=
  is_function_type t || ty_eqb t (TRef "Function").

Definition takes_callback (sg : signature) : bool :=
  existsb (fun p => is_function_type (pty p)) (params sg).

(** [(err: Error | null, ...) => void] *)
Definition error_first_type (t : ty) : bool :=
  match t with
  | TFun (Param e _ x :: _) TVoid => String.eqb e "err" && ty_eqb x ErrorOrNull
  | _ => false
  end.

Definition last_param (sg : signature) : option param :=
  last (map Some (params sg)) None.

(** Every parameter of the signature is required. *)
Definition all_required (sg : signature) : bool :=
  forallb (fun m => pmodifier_eqb m Required) (map pmod (params sg)).

(** *** 3.11 Synchronous methods and their asynchronous twins *)

(** [strip_suffix suf s] is the [stem] with [s = stem ++ suf], if any. *)
Fixpoint strip_suffix (suf s : string) : option string :=
  if String.eqb s suf then Some EmptyString
  else match s with
       | EmptyString => None
       | String c s' => option_map (String c) (strip_suffix suf s')
       end.

Definition param_eqb (p q : param) : bool :=
  String.eqb (pname p) (pname q) && pmodifier_eqb (pmod p) (pmod q)
  && ty_eqb (pty p) (pty q).

(** [strip_params ps qs]: what [qs] has after its prefix [ps], if [ps] is
    a prefix of [qs]. *)
Fixpoint strip_params (ps qs : list param) : option (list param) :=
  match ps with
  | [] => Some qs
  | p :: ps' =>
      match qs with
      | [] => None
      | q :: qs' => if param_eqb p q then strip_params ps' qs' else None
      end
  end.

Definition tparam_eqb (a b : string * ty) : bool :=
  String.eqb (fst a) (fst b) && ty_eqb (snd a) (snd b).

Fixpoint all2 {A : Type} (f : A -> A -> bool) (xs ys : list A) : bool :=
  match xs, ys with
  | [], [] => true
  | x :: xs', y :: ys' => f x y && all2 f xs' ys'
  | _, _ => false
  end.

(** The asynchronous signature [a] has the type parameters and the
    parameters of the synchronous [s], followed by callbacks only. *)
Definition adds_callbacks (s a : signature) : bool :=
  all2 tparam_eqb (tparams s) (tparams a) &&
  match strip_params (params s) (params a) with
  | Some more => forallb (fun p => is_function_type (pty p)) more
  | None => false
  end.

(** The same as a proposition. *)
Definition AddsCallbacks (s a : signature) : Prop :=
  tparams s = tparams a /\
  exists more, params a = (params s ++ more)%list /\
               Forall (fun p => is_function_type (pty p) = true) more.

(** *** 3.12 Names in type expressions and in documentation *)

(** The type names a type expression refers to. *)
Fixpoint type_names (t : ty) {struct t} : list string :=
  match t with
  | TRef x => [x]
  | TArray e => type_names e
  | TUnion alts =>
      (fix each (ts : list ty) : list string :=
         match ts with
         | [] => []
         | x :: more => (type_names x ++ each more)%list
         end) alts
  | TIndexed _ k v => (type_names k ++ type_names v)%list
  | TFun ps r =>
      ((fix each (qs : list param) : list string :=
         match qs with
         | [] => []
         | Param _ _ x :: more => (type_names x ++ each more)%list
         end) ps
      ++ type_names r)%list
  | _ => []
  end.

(** The names a signature refers to, its own type parameters apart. *)
Definition signature_names (sg : signature) : list string :=
  (flat_map (fun tp => type_names (snd tp)) (tparams sg) ++
   filter (fun n => negb (existsb (String.eqb n) (map fst (tparams sg))))
          (flat_map (fun p => type_names (pty p)) (params sg) ++ type_names (ret sg)))%list.

Definition member_refers_to (m : member) : list string :=
  match m with
  | MConstructor ps => flat_map (fun p => type_names (pty p)) ps
  | MProperty _ _ t => type_names t
  | MMethod _ sg => signature_names sg
  end.

Definition decl_refers_to (d : decl) : list string :=
  match d with
  | DImport _ _ => []
  | DFunction _ _ sg => signature_names sg
  | DAlias _ _ t => type_names t
  | DType td =>
      (match td_extends td with Some b => [b] | None => [] end
       ++ flat_map member_refers_to (own_members td))%list
  end.

Definition referenced_names (md : module_decl) : list string :=
  dedup (flat_map decl_refers_to (md_body md)).

(** A name qualified by an import of the module, as [stream.Stream]. *)
Definition imported_name (md : module_decl) (n : string) : bool :=
  existsb (fun d => match d with
                    | DImport a _ => prefix (a ++ ".") n
                    | _ => false
                    end) (md_body md).





(** ** 4. Properties of the declared surface *)

(** *** 4.1 Identity of type expressions is what [ty_eqb] decides *)

Lemma pmodifier_eqb_eq (a b : pmodifier) : pmodifier_eqb a b = true -> a = b.
Proof. destruct a, b; simpl; congruence. Qed.

Lemma ty_eqb_sound : forall a b : ty, ty_eqb a b = true -> a = b.
Proof.
  fix IH 1.
  intros a b; destruct a; destruct b; simpl; try discriminate; try reflexivity; intro H.
  - apply Bool.eqb_prop in H. now subst.
  - apply String.eqb_eq in H. now subst.
  - apply String.eqb_eq in H. now subst.
  - f_equal. now apply IH.
  - f_equal. revert alts0 H.
    induction alts as [|x xs IHxs]; intros [|y ys] H; try discriminate; try reflexivity.
    apply andb_true_iff in H as [Hx Hxs].
    f_equal; [now apply IH | now apply IHxs].
  - apply andb_true_iff in H as [H Hv]. apply andb_true_iff in H as [Hk Hkt].
    apply String.eqb_eq in Hk. subst. f_equal; now apply IH.
  - apply andb_true_iff in H as [Hps Hr].
    f_equal; [| now apply IH].
    revert ps0 Hps.
    induction ps as [|[n m t] xs IHxs]; intros [|[n' m' t'] ys] H;
      try discriminate; try reflexivity.
    apply andb_true_iff in H as [H Hxs]. apply andb_true_iff in H as [H Ht].
    apply andb_true_iff in H as [Hn Hm].
    apply String.eqb_eq in Hn. apply pmodifier_eqb_eq in Hm. subst.
    f_equal; [f_equal; now apply IH | now apply IHxs].
Qed.

Lemma ty_eqb_refl : forall a : ty, ty_eqb a a = true.
Proof.
  fix IH 1.
  intros a; destruct a; simpl; try reflexivity.
  - apply Bool.eqb_reflx.
  - apply String.eqb_refl.
  - apply String.eqb_refl.
  - apply IH.
  - induction alts as [|x xs IHxs]; [reflexivity |].
    now rewrite IH, IHxs.
  - now rewrite String.eqb_refl, !IH.
  - rewrite IH, andb_true_r.
    induction ps as [|[n m t] xs IHxs]; [reflexivity |].
    rewrite String.eqb_refl, IH, IHxs. now destruct m.
Qed.

Lemma ty_eqb_eq (a b : ty) : ty_eqb a b = true <-> a = b.
Proof.
  split; [apply ty_eqb_sound | intros ->; apply ty_eqb_refl].
Qed.

(** *** 4.2 What a connection can do *)

Lemma dedup_nil (ns : list string) : dedup ns = [] -> ns = [].
Proof.
  destruct ns; [reflexivity | discriminate].
Qed.

Lemma provides_provided_by (td : type_decl) (c : capability) :
  provides td c <-> provided_by td c <> [].
Proof.
  unfold provides, provided_by. split.
  - intros [cm [Hin Hs]] Hnil.
    apply dedup_nil in Hnil. apply map_eq_nil in Hnil.
    assert (Hf : In cm (filter (serves c) (td_members td)))
      by (apply filter_In; split; assumption).
    rewrite Hnil in Hf. exact Hf.
  - intros Hne.
    destruct (filter (serves c) (td_members td)) as [|cm l] eqn:E.
    + now elim Hne.
    + exists cm. apply filter_In. rewrite E. now left.
Qed.

(** The test for closing is no empty one: whatever type declares a method
    called [close] or [disconnect], with or without [Sync], provides the
    capability. *)
Lemma closing_method_is_seen
  (td : type_decl) (c : comment) (n : string) (sg : signature) :
  In n ["close"; "closeSync"; "disconnect"; "disconnectSync"] ->
  In (c, MMethod n sg) (td_members td) ->
  provides td CloseSession.
Proof.
  intros Hn Hin. exists (c, MMethod n sg). split; [exact Hin |].
  unfold serves, closes. cbn [snd fst is_method member_name andb].
  apply orb_true_iff. left.
  simpl in Hn. destruct Hn as [<- | [<- | [<- | [<- | []]]]]; reflexivity.
Qed.

(** Claim C2, as stated, fails for closing the session: of the members
    that [Connection] declares, none is a method that closes, by its name
    or by its comment. *)
Lemma Connection_declares_no_close : ~ provides Connection CloseSession.
Proof.
  rewrite provides_provided_by. intros H. apply H. vm_compute. reflexivity.
Qed.

(** Claim C2 (amended).  [Connection] declares methods to open a database
    session (synchronously and asynchronously), to run queries
    (synchronously and asynchronously), to commit, roll back and start the
    default transaction, and to register and unsubscribe database events.
    It declares no method to close the session: no method of it closes,
    by name or by comment, while the same test finds [_closeSync] in
    [FBBlob] and [end], [destroy] and, by its name, [check_destroyed] in
    [Stream]; its remaining methods
    prepare a statement, create a blob and start a new [Transaction].
    Every assignment of a method to one of the four capabilities rests on
    a sentence of the documentation comment of that method. *)
Theorem Connection_capabilities :
  provided_by Connection OpenSession = ["connectSync"; "connect"] /\
  provided_by Connection RunQueries = ["querySync"; "query"] /\
  provided_by Connection DatabaseEvents = ["addFBevent"; "deleteFBevent"] /\
  provided_by Connection DefaultTransaction =
    ["commitSync"; "commit"; "rollbackSync"; "rollback"; "startSync"; "start"] /\
  provided_by Connection CloseSession = [] /\
  provided_by FBBlob CloseSession = ["_closeSync"] /\
  provided_by Stream CloseSession = ["end"; "destroy"; "check_destroyed"] /\
  other_methods Connection =
    ["prepareSync"; "newBlobSync"; "startNewTransactionSync"; "startNewTransaction"] /\
  method_names Connection =
    ["connectSync"; "connect"; "querySync"; "query"; "addFBevent"; "deleteFBevent";
     "commitSync"; "commit"; "rollbackSync"; "rollback"; "startSync"; "start";
     "prepareSync"; "newBlobSync"; "startNewTransactionSync"; "startNewTransaction"] /\
  forallb (justified Connection) Connection_purposes = true /\
  members_documented_with Connection "disconnect" = [] /\
  members_documented_with Connection "clos" = ["newBlobSync"].
Proof.
  repeat split; vm_compute; reflexivity.
Qed.

(** Each capability but closing is provided, and only those. *)
Lemma Connection_provides_iff (c : capability) :
  provides Connection c <-> c <> CloseSession.
Proof.
  rewrite provides_provided_by.
  destruct c; vm_compute; split; intros H; try discriminate; try congruence.
Qed.

(** *** 4.3 Synchronous queries in a transaction *)

(** Claim C9.  [Transaction.querySync(sql)] is declared with result
    [void], while its documentation comment says that it returns an
    [FBResult] object in case of success; [Connection.querySync(sql)] is
    declared with result [FBResult].  So a call of the method on a
    [Transaction] is typed [void] and the declared signature hands out no
    [FBResult] (the asynchronous [Transaction.query] still passes one to
    its callback). *)
Theorem Transaction_querySync_returns_void :
  overloads Transaction "querySync" = [Sig [] [req "sql" TString] TVoid] /\
  doc_says (member_doc Transaction "querySync")
           "Returns FBResult object in case of success" = true /\
  overloads Connection "querySync" = [Sig [] [req "sql" TString] (TRef "FBResult")] /\
  call_type firebird (overloads Transaction "querySync") (Call [] [TString]) = Some TVoid /\
  call_type firebird (overloads Connection "querySync") (Call [] [TString])
    = Some (TRef "FBResult") /\
  forallb (hands_out firebird "FBResult") (overloads Transaction "querySync") = false /\
  forallb (hands_out firebird "FBResult") (overloads Connection "querySync") = true /\
  forallb (hands_out firebird "FBResult") (overloads Transaction "query") = true.
Proof.
  repeat split; vm_compute; reflexivity.
Qed.

(** *** 4.4 Properties documented as readonly *)

(** Claim C10.  [Connection.connected] and [Connection.inTransaction] are
    boolean properties whose documentation comments call them readonly,
    yet both are declared without the [readonly] modifier, so the type
    surface accepts an assignment to either from any code; no property of
    the whole module carries the modifier. *)
Theorem Connection_flags_are_mutable :
  property Connection "connected" = Some (false, TBoolean) /\
  property Connection "inTransaction" = Some (false, TBoolean) /\
  doc_says (member_doc Connection "connected") "A boolean readonly property" = true /\
  doc_says (member_doc Connection "inTransaction") "A boolean readonly property" = true /\
  assignable_property Connection "connected" = true /\
  assignable_property Connection "inTransaction" = true /\
  property_names Connection = ["connected"; "inTransaction"] /\
  readonly_properties firebird = [].
Proof.
  repeat split; vm_compute; reflexivity.
Qed.

(** *** 4.5 Rows as arrays or as keyed objects *)









(** The specialized overloads of [fetchSync] are tried before the general
    one. *)
Lemma fetchSync_candidates :
  candidates (overloads FBResult "fetchSync")
  = [fetchSync_arrays; fetchSync_objects; fetchSync_typed; fetchSync_any].
Proof. reflexivity. Qed.

Lemma fetch_candidates :
  candidates (overloads FBResult "fetch")
  = [fetch_arrays; fetch_objects; fetch_typed; fetch_any].
Proof. reflexivity. Qed.




(** The row counts the declarations accept: a number, the literal
    ["all"], or a value known as either. *)
Lemma RowCount_accepts :
  passes firebird TNumber RowCount = true /\
  passes firebird (TStrLit "all") RowCount = true /\
  passes firebird RowCount RowCount = true /\
  passes firebird TString RowCount = false /\
  passes firebird (TStrLit "some") RowCount = false.
Proof. repeat split; reflexivity. Qed.

(** *** 4.6 Prepared statements fetch like result sets *)

Lemma own_members_upto (f : nat) (md : module_decl) (td : type_decl) (m : member) :
  In m (own_members td) -> In m (members_upto f md td).
Proof.
  intros H. destruct f; simpl; apply in_or_app; now left.
Qed.

(** A member of the base is a member of the derived type, unless the
    derived type declares the name itself. *)
Lemma inherited (f : nat) (md : module_decl) (td base : type_decl) (m : member) :
  td_extends td = Some (td_name base) ->
  find_type md (td_name base) = Some base ->
  In m (members_upto f md base) ->
  member_name m <> "constructor" ->
  declares td (member_name m) = false ->
  In m (members_upto (S f) md td).
Proof.
  intros Hext Hfind Hin Hctor Hown.
  simpl. rewrite Hext, Hfind.
  apply in_or_app. right.
  apply filter_In. split.
  - apply filter_In. split; [exact Hin |].
    apply negb_true_iff. now apply String.eqb_neq.
  - now rewrite Hown.
Qed.

Lemma FBStatement_keeps_fetch_names (m : member) :
  In m (own_members FBResult) ->
  member_name m <> "constructor" /\ declares FBStatement (member_name m) = false.
Proof.
  intros H. vm_compute in H.
  repeat (destruct H as [<- | H]; [split; [discriminate | reflexivity] |]).
  destruct H.
Qed.

(** Claim C4.  [FBStatement] extends [FBResult], which the module
    declares; so every member of [FBResult] is a member of [FBStatement],
    and [fetchSync] and [fetch] are found on a prepared statement with the
    overloads they have on a result set.  [FBStatement] itself declares
    execution with parameters [...params: DataType[]], documented as
    running in the default connection transaction ([execSync], [exec]),
    and the same with a leading [transaction: Transaction] parameter
    ([execInTransSync], [execInTrans]). *)
Theorem FBStatement_extends_FBResult :
  td_extends FBStatement = Some (td_name FBResult) /\
  find_type firebird (td_name FBResult) = Some FBResult /\
  incl (own_members FBResult) (members firebird FBStatement) /\
  overloads_in (members firebird FBStatement) "fetchSync" = overloads FBResult "fetchSync" /\
  overloads_in (members firebird FBStatement) "fetch" = overloads FBResult "fetch" /\
  overloads FBResult "fetchSync" = fetchSync_overloads /\
  overloads FBResult "fetch" = fetch_overloads /\
  overloads FBStatement "execSync"
  = [Sig [] [rest "params" (TArray (TRef "DataType"))] TVoid] /\
  overloads FBStatement "exec"
  = [Sig [] [rest "params" (TArray (TRef "DataType"))] TVoid] /\
  overloads FBStatement "execInTransSync"
  = [Sig [] [req "transaction" (TRef "Transaction");
             rest "params" (TArray (TRef "DataType"))] TVoid] /\
  overloads FBStatement "execInTrans"
  = [Sig [] [req "transaction" (TRef "Transaction");
             rest "params" (TArray (TRef "DataType"))] TVoid] /\
  members_documented_with FBStatement "xecuted in context of default connection transaction"
  = ["execSync"; "exec"] /\
  members_documented_with FBStatement "executes statement in context of given @see Transaction"
  = ["execInTransSync"; "execInTrans"].
Proof.
  split; [reflexivity |]. split; [reflexivity |]. split.
  - intros m Hm.
    destruct (FBStatement_keeps_fetch_names m Hm) as [Hctor Hown].
    unfold members. simpl length.
    apply (inherited _ firebird FBStatement FBResult);
      [reflexivity | reflexivity | now apply own_members_upto | exact Hctor | exact Hown].
  - repeat split; vm_compute; reflexivity.
Qed.

(** *** 4.7 Transactions come from a connection *)

Lemma In_dedup (n : string) (ns : list string) : In n ns -> In n (dedup ns).
Proof.
  induction ns as [|a ns IH]; simpl; [tauto |].
  intros [-> | H]; [now left |].
  destruct (String.eqb n a) eqn:E.
  - apply String.eqb_eq in E. now left.
  - right. apply filter_In. split; [now apply IH | now rewrite E].
Qed.

(** [sources_of] misses no member: whatever member of a declared type
    hands out a value of type [n] is listed. *)
Lemma sources_of_complete (md : module_decl) (n : string) (td : type_decl) (m : member) :
  In (DType td) (md_body md) ->
  In m (own_members td) ->
  member_hands_out md n m = true ->
  In (td_name td, member_name m) (sources_of md n).
Proof.
  intros Htd Hm Hout.
  unfold sources_of. apply in_flat_map. exists (DType td). split; [exact Htd |].
  simpl. apply in_or_app. right.
  apply (in_map (fun x => (td_name td, x))).
  apply In_dedup. apply in_map. apply filter_In. now split.
Qed.

(** Claim C5.  [Transaction] is an interface, so it has no constructor;
    the only places of the module that hand out a [Transaction] are
    [Connection.startNewTransactionSync], which returns one, and
    [Connection.startNewTransaction], which passes one to its callback,
    both documented as creating the object and starting the transaction.
    [Transaction] declares [querySync], [query], [commitSync], [commit],
    [rollbackSync], [rollback], [startSync], [start] and [prepareSync] and
    the boolean property [inTransaction]; its documentation says that
    Transaction objects may be reused after commit or rollback. *)
Theorem Transaction_surface :
  td_kind Transaction = Interface /\
  constructors Transaction = [] /\
  sources_of firebird "Transaction"
  = [("Connection", "startNewTransactionSync"); ("Connection", "startNewTransaction")] /\
  overloads Connection "startNewTransactionSync" = [Sig [] [] (TRef "Transaction")] /\
  overloads Connection "startNewTransaction"
  = [Sig [] [req "callback"
               (TFun [req "err" ErrorOrNull; req "transaction" (TRef "Transaction")] TVoid)]
         TVoid] /\
  members_documented_with Connection "Creates new Transaction object and starts new transaction."
  = ["startNewTransactionSync"; "startNewTransaction"] /\
  method_names Transaction
  = ["querySync"; "query"; "commitSync"; "commit"; "rollbackSync"; "rollback";
     "startSync"; "start"; "prepareSync"] /\
  property_names Transaction = ["inTransaction"] /\
  property Transaction "inTransaction" = Some (false, TBoolean) /\
  doc_says (comment_lines (td_doc Transaction))
           "Transaction objects may be reused after commit or rollback." = true /\
  doc_says (comment_lines (td_doc Transaction))
           "call @see startNewTransactionSync or @see startNewTransaction methods of @see Connection object"
  = true.
Proof.
  repeat split; vm_compute; reflexivity.
Qed.

(** *** 4.8 Blobs, read and written by segments *)

(** Claim C6.  [FBBlob] declares [_readSync(buffer: Buffer): number],
    documented to return the actual number of bytes read, and
    [_writeSync(buffer: Buffer, len?: number): number], documented to
    return the number of bytes actually written, only [len] bytes being
    written when the optional [len] is given; both are documented as
    working on a BLOB segment (chunk), as are [_read] and [_write].  The
    asynchronous [_read], [_readAll] and [_write] return nothing and, in
    every overload, report through a callback whose first parameter is
    [err: Error | null]. *)
Theorem FBBlob_segment_io :
  overloads FBBlob "_readSync" = [Sig [] [req "buffer" (TRef "Buffer")] TNumber] /\
  doc_says (member_doc FBBlob "_readSync") "@returns actual number of bytes read." = true /\
  overloads FBBlob "_writeSync"
  = [Sig [] [req "buffer" (TRef "Buffer"); opt "len" TNumber] TNumber] /\
  map (fun sg => param_modifier sg "len") (overloads FBBlob "_writeSync") = [Some Optional] /\
  doc_says (member_doc FBBlob "_writeSync") "@returns number of bytes actually writen." = true /\
  doc_says (member_doc FBBlob "_writeSync")
           "if specified only len bytes from buffer will be writen" = true /\
  members_documented_with FBBlob "BLOB segment (chunk)"
  = ["_readSync"; "_read"; "_writeSync"; "_write"] /\
  map (fun sg => (error_first sg "callback", param_type sg "callback", ret sg))
      (overloads FBBlob "_read")
  = [(true, Some read_callback, TVoid)] /\
  map (fun sg => (error_first sg "callback", param_type sg "callback", ret sg))
      (overloads FBBlob "_readAll")
  = [(true, Some read_callback, TVoid); (true, Some read_callback, TVoid);
     (true, Some read_callback, TVoid)] /\
  map (fun sg => (error_first sg "callback", param_type sg "callback", ret sg))
      (overloads FBBlob "_write")
  = [(true, Some err_callback, TVoid)].
Proof.
  repeat split; vm_compute; reflexivity.
Qed.

(** *** 4.9 A blob as a stream *)

(** Claim C7.  [Stream] is a class that extends [stream.Stream], the
    stream type of the imported module, which this module does not
    declare itself; its one constructor takes exactly one parameter, an
    [FBBlob].  It declares the readable side ([readable], [pause],
    [resume]) and the writable side ([writable], [write], [end],
    [destroy]); its documentation says it may be piped to and from other
    streams. *)
Theorem Stream_adapts_FBBlob :
  td_kind Stream = Class /\
  td_extends Stream = Some "stream.Stream" /\
  In (DImport "stream" "stream") (md_body firebird) /\
  find_type firebird "stream.Stream" = None /\
  constructors Stream = [[req "blob" (TRef "FBBlob")]] /\
  property Stream "readable" = Some (false, TBoolean) /\
  property Stream "writable" = Some (false, TBoolean) /\
  method_names Stream = ["pause"; "resume"; "write"; "end"; "destroy"; "check_destroyed"] /\
  overloads Stream "pause" = [Sig [] [] TThis] /\
  overloads Stream "resume" = [Sig [] [] TThis] /\
  map ret (overloads Stream "write") = [TBoolean; TBoolean] /\
  map ret (overloads Stream "end") = [TThis; TThis; TThis; TThis] /\
  overloads Stream "destroy" = [Sig [] [opt "error" (TRef "Error")] TThis] /\
  doc_says (comment_lines (td_doc Stream))
           "You may pipe strm to/from NodeJS Stream objects (fs or socket)." = true.
Proof.
  split; [reflexivity |]. split; [reflexivity |]. split; [now left |].
  repeat split; vm_compute; reflexivity.
Qed.

(** *** 4.10 The families of the module *)

(** Claim C8.  The module declares [createConnection], [Connection],
    [DataType], [FBResult], [Transaction], [FBStatement], [FBBlob] and
    [Stream]; each belongs to one of the five advertised families and each
    family has a declaration.  What the specification names per family
    is there: [createConnection] returning a [Connection], and the class
    [Connection]; [querySync] returning the result and [query] passing it
    to an error-first callback; the default-transaction methods of
    [Connection] and the type [Transaction]; [prepareSync] returning an
    [FBStatement], and the class [FBStatement]; [FBBlob] and [Stream]. *)
Theorem firebird_families :
  declared_names firebird
  = ["createConnection"; "Connection"; "DataType"; "FBResult"; "Transaction";
     "FBStatement"; "FBBlob"; "Stream"] /\
  map family_of (declared_names firebird)
  = [Some Connecting; Some Connecting; Some Queries; Some Queries; Some Transactions;
     Some PreparedStatements; Some BlobStreaming; Some BlobStreaming] /\
  (forall f : family, exists n, In n (declared_names firebird) /\ family_of n = Some f) /\
  find_function firebird "createConnection" = Some (Sig [] [] (TRef "Connection")) /\
  find_type firebird "Connection" = Some Connection /\
  map ret (overloads Connection "querySync") = [TRef "FBResult"] /\
  map (fun sg => (error_first sg "callback", ret sg)) (overloads Connection "query")
  = [(true, TVoid)] /\
  provided_by Connection DefaultTransaction
  = ["commitSync"; "commit"; "rollbackSync"; "rollback"; "startSync"; "start"] /\
  find_type firebird "Transaction" = Some Transaction /\
  map ret (overloads Connection "prepareSync") = [TRef "FBStatement"] /\
  map ret (overloads Transaction "prepareSync") = [TRef "FBStatement"] /\
  find_type firebird "FBStatement" = Some FBStatement /\
  find_type firebird "FBBlob" = Some FBBlob /\
  find_type firebird "Stream" = Some Stream.
Proof.
  split; [reflexivity |]. split; [reflexivity |]. split.
  - intros f.
    destruct f;
      [ exists "Connection" | exists "FBResult" | exists "Transaction"
      | exists "FBStatement" | exists "Stream" ];
      (split; [vm_compute; tauto | reflexivity]).
  - repeat split; vm_compute; reflexivity.
Qed.

(** ** 5. Conventions the declarations keep *)

(** *** 5.1 Tools *)

Lemma mem_In (n : string) (ns : list string) :
  existsb (String.eqb n) ns = true <-> In n ns.
Proof.
  rewrite existsb_exists. split.
  - intros [x [Hx E]]. apply String.eqb_eq in E. now subst.
  - intros H. exists n. split; [exact H | apply String.eqb_refl].
Qed.

Lemma strip_suffix_sound (suf s stem : string) :
  strip_suffix suf s = Some stem -> s = stem ++ suf.
Proof.
  revert stem. induction s as [|c s IH]; intros stem; cbn [strip_suffix].
  - destruct (String.eqb EmptyString suf) eqn:E; [| discriminate].
    apply String.eqb_eq in E. intros [= <-]. now subst.
  - destruct (String.eqb (String c s) suf) eqn:E.
    + apply String.eqb_eq in E. intros [= <-]. now subst.
    + destruct (strip_suffix suf s) as [stem' |]; [| discriminate].
      intros [= <-]. simpl. f_equal. now apply IH.
Qed.

Lemma length_append (s t : string) :
  String.length (s ++ t) = String.length s + String.length t.
Proof.
  induction s as [|c s IH]; simpl; [reflexivity | now rewrite IH].
Qed.

Lemma append_longer (c : ascii) (t suf : string) : String c (t ++ suf) <> suf.
Proof.
  intros H. apply (f_equal String.length) in H. simpl in H.
  rewrite length_append in H. lia.
Qed.

Lemma strip_suffix_complete (suf stem : string) :
  strip_suffix suf (stem ++ suf) = Some stem.
Proof.
  induction stem as [|c t IH]; cbn [strip_suffix append].
  - destruct suf; cbn [strip_suffix]; now rewrite String.eqb_refl.
  - destruct (String.eqb (String c (t ++ suf)) suf) eqn:E.
    + apply String.eqb_eq in E. now apply append_longer in E.
    + now rewrite IH.
Qed.

Lemma param_eqb_eq (p q : param) : param_eqb p q = true -> p = q.
Proof.
  destruct p as [n m t], q as [n' m' t']. unfold param_eqb. simpl.
  intros H. apply andb_true_iff in H as [H Ht]. apply andb_true_iff in H as [Hn Hm].
  apply String.eqb_eq in Hn. apply pmodifier_eqb_eq in Hm. apply ty_eqb_sound in Ht.
  now subst.
Qed.

Lemma strip_params_app (ps qs more : list param) :
  strip_params ps qs = Some more -> qs = (ps ++ more)%list.
Proof.
  revert qs. induction ps as [|p ps IH]; intros qs; simpl.
  - now intros [= ->].
  - destruct qs as [|q qs]; [discriminate |].
    destruct (param_eqb p q) eqn:E; [| discriminate].
    apply param_eqb_eq in E. subst. intros H. f_equal. now apply IH.
Qed.

Lemma all2_tparams (xs ys : list (string * ty)) :
  all2 tparam_eqb xs ys = true -> xs = ys.
Proof.
  revert ys. induction xs as [|[a t] xs IH]; intros [|[b u] ys]; simpl;
    try discriminate; [reflexivity |].
  unfold tparam_eqb at 1. simpl. intros H.
  apply andb_true_iff in H as [H Hxs]. apply andb_true_iff in H as [Ha Ht].
  apply String.eqb_eq in Ha. apply ty_eqb_sound in Ht. subst.
  f_equal. now apply IH.
Qed.

Lemma adds_callbacks_spec (s a : signature) :
  adds_callbacks s a = true -> AddsCallbacks s a.
Proof.
  unfold adds_callbacks, AddsCallbacks. intros H.
  apply andb_true_iff in H as [Ht Hp].
  split; [now apply all2_tparams |].
  destruct (strip_params (params s) (params a)) as [more |] eqn:E; [| discriminate].
  exists more. split; [now apply strip_params_app |].
  apply Forall_forall. now apply forallb_forall.
Qed.

Lemma all2_Forall2 {A : Type} (f : A -> A -> bool) (P : A -> A -> Prop) :
  (forall x y, f x y = true -> P x y) ->
  forall xs ys, all2 f xs ys = true -> Forall2 P xs ys.
Proof.
  intros HfP. induction xs as [|x xs IH]; intros [|y ys]; simpl;
    try discriminate; [constructor |].
  intros H. apply andb_true_iff in H as [Hxy Hrest].
  constructor; [now apply HfP | now apply IH].
Qed.

(** *** 5.2 Callbacks *)

(** Whatever signature of the module takes a written function type as a
    parameter returns nothing, and its last parameter is a callback whose
    first parameter is [err: Error | null]. *)
Theorem callbacks_are_error_first (o n : string) (sg : signature) :
  In (o, n, sg) (all_signatures firebird) ->
  takes_callback sg = true ->
  ret sg = TVoid /\
  exists p, last_param sg = Some p /\ error_first_type (pty p) = true.
Proof.
  intros Hin Htakes.
  assert (Hall : forallb
            (fun x => implb (takes_callback (snd x))
                        (ty_eqb (ret (snd x)) TVoid &&
                         match last_param (snd x) with
                         | Some p => error_first_type (pty p)
                         | None => false
                         end))
            (all_signatures firebird) = true)
    by (vm_compute; reflexivity).
  rewrite forallb_forall in Hall. specialize (Hall _ Hin). simpl in Hall.
  rewrite Htakes in Hall. simpl in Hall.
  apply andb_true_iff in Hall as [Hret Hlast].
  split; [now apply ty_eqb_sound |].
  destruct (last_param sg) as [p |]; [| discriminate].
  now exists p.
Qed.

Lemma callbacks_are_error_first_witness :
  ret (Sig [] [req "callback" err_callback] TVoid) = TVoid /\
  exists p, last_param (Sig [] [req "callback" err_callback] TVoid) = Some p /\
            error_first_type (pty p) = true.
Proof.
  apply (callbacks_are_error_first "Connection" "commit").
  - apply (nth_error_In _ 8). reflexivity.
  - reflexivity.
Defined.

(** A method whose name ends in [Sync] has no parameter that can be
    called: neither a written function type nor [Function]. *)
Theorem sync_methods_take_no_callback (o stem : string) (sg : signature) (p : param) :
  In (o, stem ++ "Sync", sg) (all_signatures firebird) ->
  In p (params sg) ->
  is_callable (pty p) = false.
Proof.
  intros Hin Hp.
  assert (Hall : forallb
            (fun x => match strip_suffix "Sync" (snd (fst x)) with
                      | Some _ => forallb (fun q => negb (is_callable (pty q)))
                                          (params (snd x))
                      | None => true
                      end)
            (all_signatures firebird) = true)
    by (vm_compute; reflexivity).
  rewrite forallb_forall in Hall. specialize (Hall _ Hin). simpl in Hall.
  rewrite strip_suffix_complete in Hall.
  rewrite forallb_forall in Hall. specialize (Hall _ Hp).
  now apply negb_true_iff.
Qed.

Lemma sync_methods_take_no_callback_witness :
  is_callable (pty (req "sql" TString)) = false.
Proof.
  apply (sync_methods_take_no_callback "Connection" "query"
           (Sig [] [req "sql" TString] (TRef "FBResult"))).
  - apply (nth_error_In _ 3). reflexivity.
  - now left.
Defined.

(** *** 5.3 Synchronous methods and their twins *)

Lemma twins_checked (td : type_decl) (n stem : string) :
  In td (type_decls (md_body firebird)) ->
  In n (method_names td) ->
  strip_suffix "Sync" n = Some stem ->
  (if existsb (String.eqb stem) (method_names td)
   then all2 adds_callbacks (overloads td n) (overloads td stem)
   else existsb (fun x => String.eqb (fst x) (td_name td) && String.eqb (snd x) stem)
          [("Connection", "prepare"); ("Connection", "newBlob");
           ("Transaction", "prepare"); ("FBBlob", "_open"); ("FBBlob", "_close")])
  = true.
Proof.
  intros Htd Hn Hstem.
  assert (Hall : forallb
            (fun td =>
               forallb
                 (fun n =>
                    match strip_suffix "Sync" n with
                    | Some stem =>
                        if existsb (String.eqb stem) (method_names td)
                        then all2 adds_callbacks (overloads td n) (overloads td stem)
                        else existsb
                               (fun x => String.eqb (fst x) (td_name td)
                                         && String.eqb (snd x) stem)
                               [("Connection", "prepare"); ("Connection", "newBlob");
                                ("Transaction", "prepare"); ("FBBlob", "_open");
                                ("FBBlob", "_close")]
                    | None => true
                    end)
                 (method_names td))
            (type_decls (md_body firebird)) = true)
    by (vm_compute; reflexivity).
  rewrite forallb_forall in Hall. specialize (Hall _ Htd).
  rewrite forallb_forall in Hall. specialize (Hall _ Hn).
  now rewrite Hstem in Hall.
Qed.

(** Where a type declares both [xSync] and [x], the two have as many
    overloads, and each overload of [x] has the type parameters and the
    parameters of the corresponding overload of [xSync], followed by
    callbacks and nothing else. *)
Theorem async_twin_adds_callbacks (td : type_decl) (stem : string) :
  In td (type_decls (md_body firebird)) ->
  In (stem ++ "Sync") (method_names td) ->
  In stem (method_names td) ->
  Forall2 AddsCallbacks (overloads td (stem ++ "Sync")) (overloads td stem).
Proof.
  intros Htd Hsync Hasync.
  pose proof (twins_checked td _ stem Htd Hsync (strip_suffix_complete _ _)) as H.
  apply mem_In in Hasync. rewrite Hasync in H.
  revert H. apply all2_Forall2. exact adds_callbacks_spec.
Qed.

Lemma async_twin_adds_callbacks_witness :
  Forall2 AddsCallbacks (overloads FBResult ("fetch" ++ "Sync")) (overloads FBResult "fetch").
Proof.
  apply async_twin_adds_callbacks.
  - vm_compute. right. left. reflexivity.
  - vm_compute. left. reflexivity.
  - vm_compute. right. left. reflexivity.
Defined.

(** The synchronous methods without an asynchronous twin are
    [Connection.prepareSync], [Connection.newBlobSync],
    [Transaction.prepareSync], [FBBlob._openSync] and [FBBlob._closeSync],
    these and no other: a type of the module declares [xSync] and no
    method [x] exactly when the pair of its name and [x] is one of the
    five. *)
Theorem sync_only_methods (td : type_decl) (stem : string) :
  In td (type_decls (md_body firebird)) ->
  (In (stem ++ "Sync") (method_names td) /\ ~ In stem (method_names td)
   <->
   In (td_name td, stem)
      [("Connection", "prepare"); ("Connection", "newBlob"); ("Transaction", "prepare");
       ("FBBlob", "_open"); ("FBBlob", "_close")]).
Proof.
  intros Htd. split.
  - intros [Hsync Hnone].
    pose proof (twins_checked td _ stem Htd Hsync (strip_suffix_complete _ _)) as H.
    destruct (existsb (String.eqb stem) (method_names td)) eqn:E.
    + apply mem_In in E. contradiction.
    + apply existsb_exists in H as [[o x] [Hin Heq]]. simpl in Heq.
      apply andb_true_iff in Heq as [Ho Hx].
      apply String.eqb_eq in Ho. apply String.eqb_eq in Hx. now subst.
  - intros Hlisted.
    assert (Htwinless :
              existsb (String.eqb (stem ++ "Sync")) (method_names td) = true /\
              existsb (String.eqb stem) (method_names td) = false).
    { cbn [type_decls md_body firebird In] in Htd.
      destruct Htd as [<- | [<- | [<- | [<- | [<- | [<- | []]]]]]];
        cbn [In td_name Connection FBResult Transaction FBStatement FBBlob Stream]
          in Hlisted;
        repeat (destruct Hlisted as [Hl | Hlisted];
                [ first [ discriminate Hl
                        | injection Hl as <-; split; vm_compute; reflexivity ] |]);
        destruct Hlisted. }
    destruct Htwinless as [Hsync Hnone]. split.
    + now apply mem_In.
    + intros Hin. apply mem_In in Hin. congruence.
Qed.

Lemma sync_only_methods_witness :
  In ("prepare" ++ "Sync") (method_names Connection) /\ ~ In "prepare" (method_names Connection)
  <->
  In (td_name Connection, "prepare")
     [("Connection", "prepare"); ("Connection", "newBlob"); ("Transaction", "prepare");
      ("FBBlob", "_open"); ("FBBlob", "_close")].
Proof.
  apply sync_only_methods.
  vm_compute. left. reflexivity.
Defined.

(** The documentation of [FBStatement] names [Connection.prepare()] and
    [Connection.prepareSync()] as what returns a prepared statement, but
    [Connection] declares [prepareSync] only and no type of the module
    declares a member [prepare]: the places of the module
    that hand out an [FBStatement] are [Connection.prepareSync],
    [Transaction.prepareSync] and the constructor of the class. *)
Theorem prepare_is_documented_but_not_declared :
  doc_says (comment_lines (td_doc FBStatement))
           "returned by @see Connection.prepare() and @see Connection.prepareSync()" = true /\
  declares Connection "prepareSync" = true /\
  declares Connection "prepare" = false /\
  filter (fun td => declares td "prepare") (type_decls (md_body firebird)) = [] /\
  sources_of firebird "FBStatement"
  = [("Connection", "prepareSync"); ("Transaction", "prepareSync");
     ("FBStatement", "constructor")].
Proof.
  repeat split; vm_compute; reflexivity.
Qed.

(** *** 5.4 A connection has the members of a transaction *)

(** Every member that [Transaction] declares, [Connection] declares under
    the same name, and with the same declaration, [querySync] apart: there
    the parameters agree and only the result differs. *)
Theorem Connection_has_Transaction_members (m : member) :
  In m (own_members Transaction) ->
  declares Connection (member_name m) = true /\
  (member_name m <> "querySync" -> In m (own_members Connection)) /\
  (member_name m = "querySync" ->
   map params (overloads Connection "querySync") = map params (overloads Transaction "querySync")).
Proof.
  intros H. vm_compute in H.
  repeat (destruct H as [<- | H];
          [ split; [reflexivity |];
            split; [ intros Hne; first [ now elim Hne
                                       | vm_compute;
                                         repeat first [left; reflexivity | right] ]
                   | intros _; reflexivity ] |]).
  destruct H.
Qed.

Lemma Connection_has_Transaction_members_witness :
  declares Connection "commit" = true /\
  ("commit" <> "querySync" ->
   In (MMethod "commit" (Sig [] [req "callback" err_callback] TVoid))
      (own_members Connection)) /\
  ("commit" = "querySync" ->
   map params (overloads Connection "querySync") = map params (overloads Transaction "querySync")).
Proof.
  apply (Connection_has_Transaction_members
           (MMethod "commit" (Sig [] [req "callback" err_callback] TVoid))).
  apply (nth_error_In _ 3). reflexivity.
Defined.

(** *** 5.5 Every type name resolves *)

(** Whatever type name a signature, a property, an alias or an [extends]
    clause of the module refers to is declared by the module, is one of
    the ambient [Date], [Error], [Function], [Buffer], or is qualified by
    the import of the module (type parameters are bound by their
    signature). *)
Theorem type_names_resolve (n : string) :
  In n (referenced_names firebird) ->
  In n (declared_names firebird) \/ In n ambient_names \/ imported_name firebird n = true.
Proof.
  intros H.
  assert (Hall : forallb
            (fun n => existsb (String.eqb n) (declared_names firebird)
                      || existsb (String.eqb n) ambient_names
                      || imported_name firebird n)
            (referenced_names firebird) = true)
    by (vm_compute; reflexivity).
  rewrite forallb_forall in Hall. specialize (Hall _ H).
  apply orb_true_iff in Hall as [Hall | Himp]; [| now right; right].
  apply orb_true_iff in Hall as [Hd | Ha].
  - left. now apply mem_In.
  - right. left. now apply mem_In.
Qed.

Lemma type_names_resolve_witness :
  In "Buffer" (declared_names firebird) \/ In "Buffer" ambient_names
  \/ imported_name firebird "Buffer" = true.
Proof.
  apply type_names_resolve. apply mem_In. reflexivity.
Defined.

(** *** 5.6 Executing a prepared statement *)

Lemma instantiate_plain (actuals : list ty) (sg : signature) :
  tparams sg = [] -> instantiate [] actuals sg = Some (subst_sig [] sg).
Proof.
  intros H. unfold instantiate, inferred. now rewrite H.
Qed.

Lemma exec_call (n : string) (actuals : list ty) :
  In n ["execSync"; "exec"] ->
  call_type firebird (overloads FBStatement n) (Call [] actuals)
  = if forallb (fun a => passes firebird a (TRef "DataType")) actuals
    then Some TVoid else None.
Proof.
  intros [<- | [<- | []]]; unfold call_type, resolve.
  - change (candidates (overloads FBStatement "execSync"))
      with [Sig [] [rest "params" (TArray (TRef "DataType"))] TVoid].
    cbn [first_fit]. unfold fits. cbn [targs args].
    rewrite instantiate_plain by reflexivity.
    cbn - [passes forallb firebird].
    now destruct (forallb _ actuals).
  - change (candidates (overloads FBStatement "exec"))
      with [Sig [] [rest "params" (TArray (TRef "DataType"))] TVoid].
    cbn [first_fit]. unfold fits. cbn [targs args].
    rewrite instantiate_plain by reflexivity.
    cbn - [passes forallb firebird].
    now destruct (forallb _ actuals).
Qed.

Lemma execInTrans_call (n : string) (t : ty) (actuals : list ty) :
  In n ["execInTransSync"; "execInTrans"] ->
  call_type firebird (overloads FBStatement n) (Call [] (t :: actuals))
  = if passes firebird t (TRef "Transaction")
       && forallb (fun a => passes firebird a (TRef "DataType")) actuals
    then Some TVoid else None.
Proof.
  intros [<- | [<- | []]]; unfold call_type, resolve.
  - change (candidates (overloads FBStatement "execInTransSync"))
      with [Sig [] [req "transaction" (TRef "Transaction");
                    rest "params" (TArray (TRef "DataType"))] TVoid].
    cbn [first_fit]. unfold fits. cbn [targs args].
    rewrite instantiate_plain by reflexivity.
    cbn - [passes forallb firebird].
    now destruct (passes _ _ _), (forallb _ actuals).
  - change (candidates (overloads FBStatement "execInTrans"))
      with [Sig [] [req "transaction" (TRef "Transaction");
                    rest "params" (TArray (TRef "DataType"))] TVoid].
    cbn [first_fit]. unfold fits. cbn [targs args].
    rewrite instantiate_plain by reflexivity.
    cbn - [passes forallb firebird].
    now destruct (passes _ _ _), (forallb _ actuals).
Qed.

(** A prepared statement is executed with any number of parameters, none
    included, each a [Date], a [string], a [number], an [FBBlob] or a
    [DataType]: the call is accepted by [execSync] and [exec], and by
    [execInTransSync] and [execInTrans] after a leading [Transaction]. *)
Theorem exec_takes_any_number_of_values (actuals : list ty) :
  Forall (fun a => In a [TRef "Date"; TString; TNumber; TRef "FBBlob"; TRef "DataType"])
         actuals ->
  call_type firebird (overloads FBStatement "execSync") (Call [] actuals) = Some TVoid /\
  call_type firebird (overloads FBStatement "exec") (Call [] actuals) = Some TVoid /\
  call_type firebird (overloads FBStatement "execInTransSync")
            (Call [] (TRef "Transaction" :: actuals)) = Some TVoid /\
  call_type firebird (overloads FBStatement "execInTrans")
            (Call [] (TRef "Transaction" :: actuals)) = Some TVoid.
Proof.
  intros Hvals.
  assert (Hall : forallb (fun a => passes firebird a (TRef "DataType")) actuals = true).
  { induction Hvals as [|a l Ha _ IH]; [reflexivity |].
    cbn [forallb]. rewrite IH, andb_true_r.
    simpl in Ha.
    destruct Ha as [<- | [<- | [<- | [<- | [<- | []]]]]]; reflexivity. }
  rewrite !exec_call, !execInTrans_call, Hall by (simpl; tauto).
  repeat split; reflexivity.
Qed.

Lemma exec_takes_any_number_of_values_witness :
  call_type firebird (overloads FBStatement "execSync")
            (Call [] [TNumber; TString; TRef "Date"]) = Some TVoid /\
  call_type firebird (overloads FBStatement "exec")
            (Call [] [TNumber; TString; TRef "Date"]) = Some TVoid /\
  call_type firebird (overloads FBStatement "execInTransSync")
            (Call [] [TRef "Transaction"; TNumber; TString; TRef "Date"]) = Some TVoid /\
  call_type firebird (overloads FBStatement "execInTrans")
            (Call [] [TRef "Transaction"; TNumber; TString; TRef "Date"]) = Some TVoid.
Proof.
  apply (exec_takes_any_number_of_values [TNumber; TString; TRef "Date"]).
  repeat constructor; simpl; tauto.
Defined.

(** A boolean is no statement parameter: a call of [execSync] or [exec]
    that passes a [boolean], [true] or [false] anywhere is rejected. *)
Theorem exec_rejects_boolean (a : ty) (actuals : list ty) :
  In a [TBoolean; TBoolLit true; TBoolLit false] ->
  In a actuals ->
  call_type firebird (overloads FBStatement "execSync") (Call [] actuals) = None /\
  call_type firebird (overloads FBStatement "exec") (Call [] actuals) = None.
Proof.
  intros Hbool Hin.
  assert (Hall : forallb (fun a => passes firebird a (TRef "DataType")) actuals = false).
  { destruct (forallb _ actuals) eqn:E; [| reflexivity].
    rewrite forallb_forall in E. specialize (E _ Hin).
    simpl in Hbool.
    destruct Hbool as [<- | [<- | [<- | []]]]; vm_compute in E; discriminate. }
  rewrite !exec_call, Hall by (simpl; tauto).
  split; reflexivity.
Qed.

Lemma exec_rejects_boolean_witness :
  call_type firebird (overloads FBStatement "execSync") (Call [] [TNumber; TBoolean]) = None /\
  call_type firebird (overloads FBStatement "exec") (Call [] [TNumber; TBoolean]) = None.
Proof.
  apply (exec_rejects_boolean TBoolean).
  - simpl. tauto.
  - simpl. tauto.
Defined.

(** *** 5.7 Fetching needs all its arguments *)

Lemma args_fit_required (md : module_decl) (ps : list param) (actuals : list ty) :
  forallb (fun m => pmodifier_eqb m Required) (map pmod ps) = true ->
  args_fit md ps actuals = true ->
  length actuals = length ps.
Proof.
  revert actuals. induction ps as [|[n m t] ps IH]; intros actuals Hreq Hfit.
  - destruct actuals; [reflexivity | discriminate].
  - simpl in Hreq. apply andb_true_iff in Hreq as [Hm Hreq].
    apply pmodifier_eqb_eq in Hm. subst m.
    destruct actuals as [|a more]; simpl in Hfit; [discriminate |].
    apply andb_true_iff in Hfit as [_ Hfit].
    simpl. f_equal. now apply IH.
Qed.

Lemma instantiate_keeps_modifiers (tas actuals : list ty) (sg inst : signature) :
  instantiate tas actuals sg = Some inst ->
  map pmod (params inst) = map pmod (params sg).
Proof.
  unfold instantiate. intros H.
  assert (Hs : forall sigma, map pmod (params (subst_sig sigma sg)) = map pmod (params sg)).
  { intros sigma. simpl. rewrite map_map. apply map_ext. now intros [n m t]. }
  destruct (match tas with
            | [] => Some (inferred sg actuals)
            | _ :: _ => if Nat.eqb (length tas) (length (tparams sg))
                        then Some (combine (map fst (tparams sg)) tas)
                        else None
            end) as [bs |]; [| discriminate].
  destruct (forallb _ _); [injection H as <-; apply Hs | discriminate].
Qed.

Lemma fits_arity (md : module_decl) (c : call) (sg inst : signature) :
  all_required sg = true ->
  fits md c sg = Some inst ->
  length (args c) = length (params sg).
Proof.
  unfold fits, all_required. intros Hreq H.
  destruct (instantiate (targs c) (args c) sg) as [i |] eqn:E; [| discriminate].
  destruct (args_fit md (params i) (args c)) eqn:F; [| discriminate].
  apply instantiate_keeps_modifiers in E.
  apply args_fit_required in F.
  - rewrite F. rewrite <- (length_map pmod), E. apply length_map.
  - now rewrite E.
Qed.

Lemma first_fit_arity (md : module_decl) (c : call) (k : nat) (sgs : list signature) :
  Forall (fun sg => all_required sg = true /\ length (params sg) = k) sgs ->
  length (args c) <> k ->
  first_fit md c sgs = None.
Proof.
  intros Hall Hk. induction Hall as [|sg sgs [Hreq Hlen] _ IH]; [reflexivity |].
  simpl. destruct (fits md c sg) as [inst |] eqn:E; [| exact IH].
  apply fits_arity in E; [| exact Hreq]. congruence.
Qed.

(** Where every overload takes [k] parameters, all required, a call with
    another number of arguments is rejected, whatever the order in which
    the overloads are tried. *)
Lemma resolve_arity (md : module_decl) (c : call) (k : nat) (sgs : list signature) :
  Forall (fun sg => all_required sg = true /\ length (params sg) = k) sgs ->
  length (args c) <> k ->
  resolve md sgs c = None.
Proof.
  intros Hall Hk. unfold resolve. apply (first_fit_arity md c k); [| exact Hk].
  unfold candidates. apply Forall_app.
  rewrite Forall_forall in Hall.
  split; apply Forall_forall; intros sg Hsg; apply filter_In in Hsg; now apply Hall.
Qed.

(** [fetchSync] takes exactly two arguments and [fetch] exactly four: no
    argument is optional, so a call that leaves [asObject] or a callback
    out, or adds an argument, fits no overload, with or without type
    arguments. *)
Theorem fetch_arity (n : string) (k : nat) (tas actuals : list ty) :
  In (n, k) [("fetchSync", 2); ("fetch", 4)] ->
  length actuals <> k ->
  resolve firebird (overloads FBResult n) (Call tas actuals) = None.
Proof.
  intros [[= <- <-] | [[= <- <-] | []]] Hk.
  - apply (resolve_arity firebird (Call tas actuals) 2); [| exact Hk].
    repeat constructor.
  - apply (resolve_arity firebird (Call tas actuals) 4); [| exact Hk].
    repeat constructor.
Qed.

Lemma fetch_arity_witness :
  resolve firebird (overloads FBResult "fetchSync") (Call [] [TStrLit "all"]) = None.
Proof.
  apply (fetch_arity "fetchSync" 2 [] [TStrLit "all"]).
  - simpl. tauto.
  - simpl. lia.
Defined.

(** *** 5.8 Parameter tags of the documentation *)



(** *** 5.9 Overloads and results *)

Lemma overloads_in_named (ms : list member) (n : string) (sg : signature) :
  In sg (overloads_in ms n) ->
  In n (map member_name (filter is_method ms)).
Proof.
  induction ms as [|m ms IH]; simpl; [tauto |].
  destruct m as [ps | x ro t | x sg']; simpl; try exact IH.
  destruct (String.eqb x n) eqn:E.
  - apply String.eqb_eq in E. now left.
  - intros H. right. now apply IH.
Qed.

(** The overloads of a method differ in their parameters only: in every
    type of the module, any two overloads of one method have the same
    result type, [fetchSync] apart.  So but for [fetchSync] the type of a
    call does not depend on the overload it takes. *)
Theorem overloads_agree_on_result
  (td : type_decl) (n : string) (sg1 sg2 : signature) :
  In td (type_decls (md_body firebird)) ->
  In sg1 (overloads td n) ->
  In sg2 (overloads td n) ->
  n <> "fetchSync" ->
  ret sg1 = ret sg2.
Proof.
  intros Htd H1 H2 Hn.
  assert (Hall : forallb
            (fun td =>
               forallb
                 (fun n =>
                    String.eqb n "fetchSync"
                    || forallb
                         (fun s1 => forallb (fun s2 => ty_eqb (ret s1) (ret s2))
                                            (overloads td n))
                         (overloads td n))
                 (method_names td))
            (type_decls (md_body firebird)) = true)
    by (vm_compute; reflexivity).
  rewrite forallb_forall in Hall. specialize (Hall _ Htd).
  rewrite forallb_forall in Hall.
  assert (Hname : In n (method_names td))
    by (apply In_dedup; exact (overloads_in_named _ _ _ H1)).
  specialize (Hall _ Hname).
  apply orb_true_iff in Hall as [E | Hall].
  - apply String.eqb_eq in E. contradiction.
  - rewrite forallb_forall in Hall. specialize (Hall _ H1).
    rewrite forallb_forall in Hall. specialize (Hall _ H2).
    now apply ty_eqb_sound.
Qed.

Lemma overloads_agree_on_result_witness :
  ret (Sig [] [req "callback" read_callback] TVoid)
  = ret (Sig [] [req "initialSize" TNumber; req "callback" read_callback] TVoid).
Proof.
  apply (overloads_agree_on_result FBBlob "_readAll").
  - apply (nth_error_In _ 4). reflexivity.
  - apply (nth_error_In _ 2). reflexivity.
  - apply (nth_error_In _ 1). reflexivity.
  - discriminate.
Defined.

(** *** 5.10 Comments that are no documentation *)

(** The comment of [Transaction.inTransaction] calls the property
    readonly, as the comments of the two flags of [Connection] do; it is a
    plain block comment, not a documentation comment, and the property is
    declared without the modifier.  The members of the module whose
    comment is a plain block are this one and the two flags of
    [Stream]. *)
Theorem Transaction_flag_comment :
  member_comment Transaction "inTransaction"
  = Block ["A boolean readonly property indicating if this transaction is in started state."] /\
  assignable_property Transaction "inTransaction" = true /\
  flat_map (fun td =>
              flat_map (fun cm => match fst cm with
                                  | Block _ => [(td_name td, member_name (snd cm))]
                                  | _ => []
                                  end) (td_members td))
           (type_decls (md_body firebird))
  = [("Transaction", "inTransaction"); ("Stream", "readable"); ("Stream", "writable")].
Proof.
  repeat split; vm_compute; reflexivity.
Qed.
